(** * zerver/lib/home.py: the page_params snapshot of the home view

    A shallow embedding of [zerver/lib/home.py].  Python dicts that the
    module shares between [register_ret] and [page_params] live in an
    explicit store, so that the write
    [page_params["user_settings"]["enable_desktop_notifications"] = False]
    is seen through every alias.  Collaborators whose code is outside this
    file (event registration, i18n, the ORM tables, Django settings, the
    Python library clock and calendar) are fields of the record [World]. *)

From stdpp Require Import gmap strings list fin_maps.
From Stdlib Require Import ZArith QArith_base.

Open Scope Z_scope.

#[local] Set Warnings "-clear-no-such-hyp".

(** ** Python values and the store of dicts *)

Abbreviation loc := positive.

(** A dict is a mutable object: a value refers to it by its location.  A
    float is only ever passed through, and stands as the rational it
    denotes. *)
#[warnings="-register-all"]
Inductive value : Type :=
  | VNone
  | VBool (b : bool)
  | VInt (n : Z)
  | VFloat (q : Q)
  | VStr (s : string)
  | VList (xs : list value)
  | VRef (l : loc).

Abbreviation pydict := (gmap string value).
Abbreviation heap := (gmap loc (gmap string value)).

Inductive exn : Type :=
  | KeyError (k : string)
  | TypeError
  | IndexError
  | AssertionError
  | AttributeError
  | UpstreamError (what : string).

Inductive outcome (A : Type) : Type :=
  | Ok (a : A)
  | Raise (e : exn).
Arguments Ok {A} a.
Arguments Raise {A} e.

(** Statements run against the store; a raised exception keeps the writes
    made before it, as in Python. *)
Definition M (A : Type) : Type := heap → outcome A * heap.

Definition ret {A} (a : A) : M A := λ h, (Ok a, h).
Definition raise {A} (e : exn) : M A := λ h, (Raise e, h).
Definition bind {A B} (m : M A) (k : A → M B) : M B :=
  λ h, match m h with
       | (Ok a, h') => k a h'
       | (Raise e, h') => (Raise e, h')
       end.

Notation "x <- m ;; k" := (bind m (λ x, k))
  (at level 100, m at next level, right associativity).
Notation "m ;;; k" := (bind m (λ _, k))
  (at level 100, right associativity).

(** The next unused location: one past the largest one in use. *)
Definition fresh_loc (h : heap) : loc :=
  Pos.succ (foldr (λ kv acc, Pos.max kv.1 acc) 1%positive (map_to_list h)).

(** [dict(...)] / [{...}]: a new dict object. *)
Definition alloc (d : pydict) : M loc :=
  λ h, let l := fresh_loc h in (Ok l, <[l := d]> h).

(** [isinstance(v, dict)] *)
Definition isinstance_dict (v : value) : M bool :=
  λ h, match v with
       | VRef l => (Ok (bool_decide (is_Some (h !! l))), h)
       | _ => (Ok false, h)
       end.

(** [v[k]] for a string key [k]: only dicts accept it. *)
Definition getitem (v : value) (k : string) : M value :=
  λ h, match v with
       | VRef l =>
           match h !! l with
           | Some d =>
               match d !! k with
               | Some x => (Ok x, h)
               | None => (Raise (KeyError k), h)
               end
           | None => (Raise TypeError, h)
           end
       | _ => (Raise TypeError, h)
       end.

(** [v[k] = x] for a string key [k]. *)
Definition setitem (v : value) (k : string) (x : value) : M unit :=
  λ h, match v with
       | VRef l =>
           match h !! l with
           | Some d => (Ok tt, <[l := <[k := x]> d]> h)
           | None => (Raise TypeError, h)
           end
       | _ => (Raise TypeError, h)
       end.

(** [d.keys()] *)
Definition keys (v : value) : M (list string) :=
  λ h, match v with
       | VRef l =>
           match h !! l with
           | Some d => (Ok (map_to_list d).*1, h)
           | None => (Raise AttributeError, h)
           end
       | _ => (Raise AttributeError, h)
       end.

(** [for x in xs: body(x)] *)
Fixpoint for_each {A} (xs : list A) (body : A → M unit) : M unit :=
  match xs with
  | [] => ret tt
  | x :: xs' => body x ;;; for_each xs' body
  end.

(** [[f(x) for x in xs]] *)
Fixpoint comprehension {A B} (xs : list A) (f : A → M B) : M (list B) :=
  match xs with
  | [] => ret []
  | x :: xs' => y <- f x ;; ys <- comprehension xs' f ;; ret (y :: ys)
  end.

(** [xs[i]] on a list *)
Definition index {A} (xs : list A) (i : nat) : M A :=
  match xs !! i with
  | Some x => ret x
  | None => raise IndexError
  end.

(** A computation that does not touch the store. *)
Definition lift {A} (o : outcome A) : M A := λ h, (o, h).

(** ** The data model: the ORM records the module reads *)

Record Realm : Type := {
  realm_id : Z;
  plan_type : Z;
  webathena_enabled : bool;
}.

Record UserProfile : Type := {
  user_id : Z;
  color_scheme : Z;
  is_guest : bool;
  is_realm_admin : bool;
  is_realm_owner : bool;
  has_billing_access : bool;
  allowed_bot_types : list Z;
  realm : Realm;
}.

Record Stream : Type := {
  stream_name : string;
  recipient : Z;
}.

Record Message : Type := {
  message_id : Z;
  message_recipient : Z;
}.

Record Customer : Type := {
  customer_id : Z;
  customer_realm : Z;
  sponsorship_pending : bool;
}.

Record CustomerPlan : Type := {
  plan_id : Z;
  plan_customer : Z;
}.

Record struct_time : Type := {
  tm_year : Z; tm_mon : Z; tm_mday : Z;
  tm_hour : Z; tm_min : Z; tm_sec : Z;
}.

Record datetime : Type := {
  dt_year : Z; dt_month : Z; dt_day : Z;
  dt_hour : Z; dt_minute : Z; dt_second : Z; dt_microsecond : Z;
  (** [utcoffset()] in seconds, [None] for a naive datetime *)
  dt_utcoffset : option Z;
}.

Record UserActivity : Type := {
  last_visit : datetime;
}.

Record Client : Type := {
  client_name : string;
}.

Record Device : Type := {
  device_name : string;
}.

Record HttpRequest : Type := {
  path_info : string;
  (** [get_request_notes(request).client] *)
  notes_client : option Client;
}.

Record BillingInfo : Type := {
  show_billing : bool;
  show_plans : bool;
}.

Record UserPermissionInfo : Type := {
  upi_color_scheme : Z;
  upi_is_guest : bool;
  upi_is_realm_admin : bool;
  upi_is_realm_owner : bool;
  upi_show_webathena : bool;
}.

(** ** The collaborators *)

(** [django.conf.settings], the entries the module reads. *)
Record Settings : Type := {
  CORPORATE_ENABLED : bool;
  PROMOTE_SPONSORING_ZULIP : bool;
  TWO_FACTOR_AUTHENTICATION_ENABLED : bool;
  TEST_SUITE : bool;
  HOME_NOT_LOGGED_IN : string;
  WARN_NO_EMAIL : bool;
  SEARCH_PILLS_ENABLED : bool;
}.

(** Class constants of [zerver.models], declared outside this file. *)
Record ModelConstants : Type := {
  Realm_SELF_HOSTED : Z;
  Realm_LIMITED : Z;
  Realm_STANDARD_FREE : Z;
  COLOR_SCHEME_AUTOMATIC : Z;
  BOT_TYPES : list (Z * string);
}.

(** The tables of [corporate.models]. *)
Record BillingStore : Type := {
  customers : list Customer;
  customer_plans : list CustomerPlan;
}.

Record ClientCapabilities : Type := {
  notification_settings_null : bool;
  bulk_message_deletion : bool;
  user_avatar_url_field_optional : bool;
  stream_typing_notifications : bool;
  user_settings_object : bool;
}.

(** Keyword arguments of [do_events_register]. *)
Record RegisterArgs : Type := {
  ra_apply_markdown : bool;
  ra_client_gravatar : bool;
  ra_slim_presence : bool;
  ra_client_capabilities : ClientCapabilities;
  ra_narrow : list (list string);
  ra_include_streams : bool;
}.

(** Keyword arguments of [fetch_initial_state_data]. *)
Record FetchArgs : Type := {
  fa_realm : Realm;
  fa_event_types : option (list string);
  fa_queue_id : option string;
  fa_client_gravatar : bool;
  fa_user_avatar_url_field_optional : bool;
  fa_user_settings_object : bool;
  fa_slim_presence : bool;
  fa_include_subscribers : bool;
  fa_include_streams : bool;
}.

Record World : Type := {
  settings : Settings;
  consts : ModelConstants;
  billing : BillingStore;
  (** [Message.objects] *)
  messages : list Message;
  (** [zerver.views.message_flags] *)
  get_latest_update_message_flag_activity : UserProfile → option UserActivity;
  (** [zerver.lib.events]: these build and rewrite dicts of the store *)
  do_events_register : UserProfile → Client → RegisterArgs → M value;
  fetch_initial_state_data : option UserProfile → FetchArgs → M value;
  post_process_state : option UserProfile → value → bool → M unit;
  (** [zerver.lib.i18n] and [django.utils.translation] *)
  get_and_set_request_language : HttpRequest → value → option string → string;
  get_language_from_path : string → option string;
  get_language_list : list (gmap string value);
  get_language_translation_data : string → gmap string value;
  (** [zerver.context_processors] *)
  get_apps_page_url : string;
  (** [two_factor.utils] *)
  default_device : option UserProfile → option Device;
  (** Python's [time.time], [datetime.utctimetuple], [calendar.timegm] *)
  time_time : Q;
  utctimetuple : datetime → struct_time;
  timegm : struct_time → Z;
}.

Definition with_billing (w : World) (b : BillingStore) : World :=
  {| settings := settings w; consts := consts w; billing := b;
     messages := messages w;
     get_latest_update_message_flag_activity :=
       get_latest_update_message_flag_activity w;
     do_events_register := do_events_register w;
     fetch_initial_state_data := fetch_initial_state_data w;
     post_process_state := post_process_state w;
     get_and_set_request_language := get_and_set_request_language w;
     get_language_from_path := get_language_from_path w;
     get_language_list := get_language_list w;
     get_language_translation_data := get_language_translation_data w;
     get_apps_page_url := get_apps_page_url w;
     default_device := default_device w;
     time_time := time_time w;
     utctimetuple := utctimetuple w;
     timegm := timegm w |}.

(** ** The helpers of home.py *)

Definition get_furthest_read_time (w : World)
    (user_profile : option UserProfile) : value :=
  match user_profile with
  | None => VFloat (time_time w)
  | Some u =>
      match get_latest_update_message_flag_activity w u with
      | None => VNone
      | Some user_activity =>
          VInt (timegm w (utctimetuple w (last_visit user_activity)))
      end
  end.

(** [for ... in xs] with a variable carried from one turn to the next. *)
Fixpoint for_acc {A S} (xs : list A) (s : S) (body : S → A → M S) : M S :=
  match xs with
  | [] => ret s
  | x :: xs' => s' <- body s x ;; for_acc xs' s' body
  end.

Definition get_bot_types (w : World)
    (user_profile : option UserProfile) : M (list value) :=
  let bot_types := [] in
  match user_profile with
  | None => ret bot_types
  | Some u =>
      for_acc (BOT_TYPES (consts w)) bot_types (λ bot_types item,
        let '(type_id, name) := item in
        d <- alloc (list_to_map
               [("type_id", VInt type_id);
                ("name", VStr name);
                ("allowed",
                 VBool (bool_decide (type_id ∈ allowed_bot_types u)))]) ;;
        ret (bot_types ++ [VRef d]))
  end.

Definition promote_sponsoring_zulip_in_realm (w : World) (r : Realm) : bool :=
  if negb (PROMOTE_SPONSORING_ZULIP (settings w)) then false
  else bool_decide
         (plan_type r ∈
            [Realm_STANDARD_FREE (consts w); Realm_SELF_HOSTED (consts w)]).

(** Modelled from the spec: [corporate.models.get_customer_by_realm], the
    customer record of a realm, if any ("customer not found" is a normal
    outcome). *)
Definition get_customer_by_realm (b : BillingStore) (r : Realm)
    : option Customer :=
  List.find (λ c, customer_realm c =? realm_id r) (customers b).

(** Modelled from the spec: [CustomerPlan.objects.filter(customer=c).exists()],
    whether a plan record of the customer exists. *)
Definition customer_plan_exists (b : BillingStore) (c : Customer) : bool :=
  existsb (λ p, plan_customer p =? customer_id c) (customer_plans b).

(** The queries sent to the billing subsystem, in order. *)
Inductive BillingQuery : Type :=
  | QCustomerByRealm (r : Realm)
  | QPlanExists (c : Customer).

Definition get_billing_info_logged (w : World)
    (user_profile : option UserProfile) : BillingInfo * list BillingQuery :=
  let show_billing := false in
  let show_plans := false in
  let queries := [] in
  let '(show_billing, show_plans, queries) :=
    match user_profile with
    | Some u =>
        if CORPORATE_ENABLED (settings w) then
          let '(show_billing, queries) :=
            if has_billing_access u then
              let customer := get_customer_by_realm (billing w) (realm u) in
              let queries := queries ++ [QCustomerByRealm (realm u)] in
              match customer with
              | Some customer =>
                  if sponsorship_pending customer then (true, queries)
                  else if customer_plan_exists (billing w) customer
                       then (true, queries ++ [QPlanExists customer])
                       else (show_billing, queries ++ [QPlanExists customer])
              | None => (show_billing, queries)
              end
            else (show_billing, queries) in
          let show_plans :=
            if negb (is_guest u)
               && (plan_type (realm u) =? Realm_LIMITED (consts w))
            then true else show_plans in
          (show_billing, show_plans, queries)
        else (show_billing, show_plans, queries)
    | None => (show_billing, show_plans, queries)
    end in
  ({| show_billing := show_billing; show_plans := show_plans |}, queries).

Definition get_billing_info (w : World) (user_profile : option UserProfile)
    : BillingInfo :=
  (get_billing_info_logged w user_profile).1.

Definition get_user_permission_info (w : World)
    (user_profile : option UserProfile) : UserPermissionInfo :=
  match user_profile with
  | Some u =>
      {| upi_color_scheme := color_scheme u;
         upi_is_guest := is_guest u;
         upi_is_realm_owner := is_realm_owner u;
         upi_is_realm_admin := is_realm_admin u;
         upi_show_webathena := webathena_enabled (realm u) |}
  | None =>
      {| upi_color_scheme := COLOR_SCHEME_AUTOMATIC (consts w);
         upi_is_guest := false;
         upi_is_realm_admin := false;
         upi_is_realm_owner := false;
         upi_show_webathena := false |}
  end.

(** ** The narrow override (lines 223-238) *)

(** [Message.objects.filter(recipient=r)] *)
Definition filter_recipient (ms : list Message) (r : Z) : list Message :=
  List.filter (λ m, message_recipient m =? r) ms.

(** [.order_by("id")]: ascending ids. *)
Fixpoint insert_by_id (m : Message) (ms : list Message) : list Message :=
  match ms with
  | [] => [m]
  | m' :: ms' =>
      if message_id m <=? message_id m' then m :: ms
      else m' :: insert_by_id m ms'
  end.

Definition order_by_id (ms : list Message) : list Message :=
  foldr insert_by_id [] ms.

(** [queryset[0]]: raises [IndexError] on an empty result. *)
Definition first_row {A} (rows : list A) : outcome A :=
  match rows with
  | [] => Raise IndexError
  | row :: _ => Ok row
  end.

(** The [try ... except IndexError] of lines 226-231. *)
Definition narrow_max_message_id (w : World) (narrow_stream : Stream)
    : outcome Z :=
  let recipient := recipient narrow_stream in
  match first_row (rev (order_by_id (filter_recipient (messages w) recipient)))
  with
  | Ok m => Ok (message_id m)
  | Raise IndexError => Ok (-1)
  | Raise e => Raise e
  end.

(** Line 235: the narrow terms re-encoded as operator/operand dicts. *)
Definition encode_narrow (narrow : list (list string)) : M (list value) :=
  comprehension narrow (λ term,
    operator <- index term 0 ;;
    operand <- index term 1 ;;
    d <- alloc (list_to_map [("operator", VStr operator);
                             ("operand", VStr operand)]) ;;
    ret (VRef d)).

(** Lines 237-238: the assertion and the write through
    [page_params["user_settings"]]. *)
Definition force_desktop_notifications_off (page_params : value) : M unit :=
  user_settings <- getitem page_params "user_settings" ;;
  is_dict <- isinstance_dict user_settings ;;
  (if is_dict then ret tt else raise AssertionError) ;;;
  user_settings <- getitem page_params "user_settings" ;;
  setitem user_settings "enable_desktop_notifications" (VBool false).

(** The body of [if narrow_stream is not None:]. *)
Definition narrow_override (w : World) (page_params : value)
    (narrow : list (list string)) (narrow_stream : Stream)
    (narrow_topic : option string) : M unit :=
  max_message_id <- lift (narrow_max_message_id w narrow_stream) ;;
  setitem page_params "narrow_stream" (VStr (stream_name narrow_stream)) ;;;
  match narrow_topic with
  | Some topic => setitem page_params "narrow_topic" (VStr topic)
  | None => ret tt
  end ;;;
  terms <- encode_narrow narrow ;;
  setitem page_params "narrow" (VList terms) ;;;
  setitem page_params "max_message_id" (VInt max_message_id) ;;;
  force_desktop_notifications_off page_params.

(** ** The assembler *)

Definition is_none {A} (o : option A) : bool :=
  match o with None => true | Some _ => false end.

(** The fields of the [dict(...)] literal of lines 189-218, the language
    list and the bot types already built. *)
Definition computed_fields (w : World) (user_profile : option UserProfile)
    (realm : Realm) (insecure_desktop_app : bool)
    (first_in_realm prompt_for_invites needs_tutorial : bool)
    (furthest_read_time : value) (two_fa_enabled : bool)
    (billing_info : BillingInfo) (user_permission_info : UserPermissionInfo)
    (language_list bot_types : list value) : list (string * value) :=
  [ ("test_suite", VBool (TEST_SUITE (settings w)));
    ("insecure_desktop_app", VBool insecure_desktop_app);
    ("login_page", VStr (HOME_NOT_LOGGED_IN (settings w)));
    ("warn_no_email", VBool (WARN_NO_EMAIL (settings w)));
    ("search_pills_enabled", VBool (SEARCH_PILLS_ENABLED (settings w)));
    ("corporate_enabled", VBool (CORPORATE_ENABLED (settings w)));
    ("language_list", VList language_list);
    ("needs_tutorial", VBool needs_tutorial);
    ("first_in_realm", VBool first_in_realm);
    ("prompt_for_invites", VBool prompt_for_invites);
    ("furthest_read_time", furthest_read_time);
    ("bot_types", VList bot_types);
    ("two_fa_enabled", VBool two_fa_enabled);
    ("apps_page_url", VStr (get_apps_page_url w));
    ("show_billing", VBool (show_billing billing_info));
    ("promote_sponsoring_zulip",
     VBool (promote_sponsoring_zulip_in_realm w realm));
    ("show_plans", VBool (show_plans billing_info));
    ("show_webathena", VBool (upi_show_webathena user_permission_info));
    ("two_fa_enabled_user",
     VBool (two_fa_enabled
            && negb (is_none (default_device w user_profile))));
    ("is_spectator", VBool (is_none user_profile));
    ("no_event_queue", VBool (is_none user_profile)) ].

Definition client_capabilities : ClientCapabilities :=
  {| notification_settings_null := true;
     bulk_message_deletion := true;
     user_avatar_url_field_optional := true;
     stream_typing_notifications := false;
     user_settings_object := true |}.

(** Lines 141-173: event registration, or the one-shot fetch of a
    spectator. *)
Definition register_or_fetch (w : World) (request : HttpRequest)
    (user_profile : option UserProfile) (realm : Realm)
    (narrow : list (list string)) : M value :=
  match user_profile with
  | Some u =>
      match notes_client request with
      | None => raise AssertionError
      | Some client =>
          do_events_register w u client
            {| ra_apply_markdown := true;
               ra_client_gravatar := true;
               ra_slim_presence := true;
               ra_client_capabilities := client_capabilities;
               ra_narrow := narrow;
               ra_include_streams := false |}
      end
  | None =>
      register_ret <-
        fetch_initial_state_data w user_profile
          {| fa_realm := realm;
             fa_event_types := None;
             fa_queue_id := None;
             fa_client_gravatar := false;
             fa_user_avatar_url_field_optional :=
               user_avatar_url_field_optional client_capabilities;
             fa_user_settings_object :=
               user_settings_object client_capabilities;
             fa_slim_presence := false;
             fa_include_subscribers := false;
             fa_include_streams := false |} ;;
      post_process_state w user_profile register_ret false ;;;
      ret register_ret
  end.

(** [get_language_list()]: a new list of new dicts. *)
Definition language_list_dicts (w : World) : M (list value) :=
  comprehension (get_language_list w) (λ d, l <- alloc d ;; ret (VRef l)).

(** Lines 220-221. *)
Definition merge_register_ret (register_ret page_params : value) : M unit :=
  field_names <- keys register_ret ;;
  for_each field_names (λ field_name,
    v <- getitem register_ret field_name ;;
    setitem page_params field_name v).

Definition build_page_params_for_home_page_load (w : World)
    (request : HttpRequest) (user_profile : option UserProfile)
    (realm : Realm) (insecure_desktop_app : bool)
    (narrow : list (list string)) (narrow_stream : option Stream)
    (narrow_topic : option string)
    (first_in_realm prompt_for_invites needs_tutorial : bool)
    : M (value * value) :=
  register_ret <- register_or_fetch w request user_profile realm narrow ;;
  let furthest_read_time := get_furthest_read_time w user_profile in
  user_settings <- getitem register_ret "user_settings" ;;
  default_language <- getitem user_settings "default_language" ;;
  let request_language :=
    get_and_set_request_language w request default_language
      (get_language_from_path w (path_info request)) in
  let two_fa_enabled :=
    TWO_FACTOR_AUTHENTICATION_ENABLED (settings w)
    && negb (is_none user_profile) in
  let billing_info := get_billing_info w user_profile in
  let user_permission_info := get_user_permission_info w user_profile in
  language_list <- language_list_dicts w ;;
  bot_types <- get_bot_types w user_profile ;;
  p <- alloc (list_to_map
         (computed_fields w user_profile realm insecure_desktop_app
            first_in_realm prompt_for_invites needs_tutorial
            furthest_read_time two_fa_enabled billing_info
            user_permission_info language_list bot_types)) ;;
  let page_params := VRef p in
  merge_register_ret register_ret page_params ;;;
  match narrow_stream with
  | Some narrow_stream =>
      narrow_override w page_params narrow narrow_stream narrow_topic
  | None => ret tt
  end ;;;
  translation_data <- alloc (get_language_translation_data w request_language) ;;
  setitem page_params "translation_data" (VRef translation_data) ;;;
  queue_id <- getitem register_ret "queue_id" ;;
  ret (queue_id, page_params).

(** * The vocabulary of the properties *)

(** The condition under which the billing link is shown. *)
Definition billing_visible (w : World) (user_profile : option UserProfile)
    : Prop :=
  CORPORATE_ENABLED (settings w) = true ∧
  ∃ u, user_profile = Some u ∧ has_billing_access u = true ∧
    ∃ c, get_customer_by_realm (billing w) (realm u) = Some c ∧
      (sponsorship_pending c = true ∨
       ∃ p, p ∈ customer_plans (billing w) ∧ plan_customer p = customer_id c).

(** Ascending ids, as [order_by("id")] returns them. *)
Inductive ascending : list Message → Prop :=
  | ascending_nil : ascending []
  | ascending_cons (m : Message) (ms : list Message) :
      (∀ m', m' ∈ ms → message_id m ≤ message_id m') →
      ascending ms → ascending (m :: ms).

(** Statements that only create objects leave the existing ones alone. *)
Definition allocates_only {A} (m : M A) : Prop :=
  ∀ (h : heap) o (h' : heap), m h = (o, h') → h ⊆ h'.

(** Every narrow term needs an operator and an operand. *)
Definition narrow_well_formed (narrow : list (list string)) : bool :=
  forallb (λ term, bool_decide (2 ≤ length term)%nat) narrow.

(** The dict of [page_params] after lines 232-236. *)
Definition narrow_fields (s : Stream) (topic : option string)
    (terms : list value) (n : Z) (d : gmap string value)
    : gmap string value :=
  <["max_message_id" := VInt n]>
    (<["narrow" := VList terms]>
       (match topic with
        | Some t => <["narrow_topic" := VStr t]>
        | None => id
        end (<["narrow_stream" := VStr (stream_name s)]> d))).

(** The [dict(...)] literal of lines 189-218 with the values of lines
    175-185 filled in. *)
Definition page_params_literal (w : World) (user_profile : option UserProfile)
    (realm : Realm) (insecure_desktop_app : bool)
    (first_in_realm prompt_for_invites needs_tutorial : bool)
    (language_list bot_types : list value) : gmap string value :=
  list_to_map
    (computed_fields w user_profile realm insecure_desktop_app
       first_in_realm prompt_for_invites needs_tutorial
       (get_furthest_read_time w user_profile)
       (TWO_FACTOR_AUTHENTICATION_ENABLED (settings w)
        && negb (is_none user_profile))
       (get_billing_info w user_profile)
       (get_user_permission_info w user_profile)
       language_list bot_types).

(** The keys of [page_params] the narrow override assigns. *)
Definition narrow_keys (narrow_topic : option string) : list string :=
  ["narrow_stream"; "narrow"; "max_message_id"]
  ++ match narrow_topic with Some _ => ["narrow_topic"] | None => [] end.

(** The keys of [page_params] assigned after the merge of lines 220-221. *)
Definition rewritten_after_merge (narrow_stream : option Stream)
    (narrow_topic : option string) : list string :=
  match narrow_stream with
  | Some _ => narrow_keys narrow_topic
  | None => []
  end ++ ["translation_data"].

(** Modelled from the spec: [fetch_initial_state_data] followed by
    [post_process_state], both of [zerver.lib.events].  The fetch makes no
    queue registration, so the state dict carries the queue id it was
    given; and field names of the snapshot are unique, so the state has no
    field named like the assembler's own. *)
Definition spectator_state_contract (w : World) : Prop :=
  ∀ user_profile args h r h1 u h2,
    fetch_initial_state_data w user_profile args h = (Ok r, h1) →
    post_process_state w user_profile r false h1 = (Ok u, h2) →
    ∃ l state,
      r = VRef l ∧ h2 !! l = Some state ∧
      state !! "queue_id"
        = Some (match fa_queue_id args with
                | Some q => VStr q
                | None => VNone
                end) ∧
      state !! "is_spectator" = None ∧
      state !! "no_event_queue" = None ∧
      state !! "bot_types" = None.

(** The keys that a step after the merge may assign: the four of the
    narrow override and the translation data. *)
Definition keys_rewritten_later : list string :=
  ["narrow_stream"; "narrow_topic"; "narrow"; "max_message_id";
   "translation_data"].

(** The dict of [page_params] after lines 232-234. *)
Definition stream_fields (s : Stream) (topic : option string)
    (d : gmap string value) : gmap string value :=
  match topic with
  | Some t => <["narrow_topic" := VStr t]>
  | None => id
  end (<["narrow_stream" := VStr (stream_name s)]> d).

(** Lines 223-242: what the assembler does after the merge. *)
Definition build_tail (w : World) (narrow : list (list string))
    (narrow_stream : option Stream) (narrow_topic : option string)
    (register_ret : value) (request_language : string)
    (page_params : value) : M (value * value) :=
  match narrow_stream with
  | Some narrow_stream =>
      narrow_override w page_params narrow narrow_stream narrow_topic
  | None => ret tt
  end ;;;
  translation_data <- alloc (get_language_translation_data w request_language) ;;
  setitem page_params "translation_data" (VRef translation_data) ;;;
  queue_id <- getitem register_ret "queue_id" ;;
  ret (queue_id, page_params).

(** The language of line 177 for a registered default language. *)
Definition request_language (w : World) (request : HttpRequest)
    (default_language : value) : string :=
  get_and_set_request_language w request default_language
    (get_language_from_path w (path_info request)).

(** The dict [get_bot_types] builds for one bot type. *)
Definition bot_type_dict (u : UserProfile) (type_id : Z) (name : string)
    : gmap string value :=
  list_to_map
    [("type_id", VInt type_id);
     ("name", VStr name);
     ("allowed", VBool (bool_decide (type_id ∈ allowed_bot_types u)))].

(** The dict line 235 builds for one narrow term. *)
Definition narrow_term_dict (operator operand : string) : gmap string value :=
  list_to_map [("operator", VStr operator); ("operand", VStr operand)].

(** One new dict per narrow term, in order. *)
Definition encodes_term (h h' : heap) (term : list string) (v : value)
    : Prop :=
  ∃ l operator operand,
    v = VRef l ∧ h !! l = None ∧
    term !! 0%nat = Some operator ∧ term !! 1%nat = Some operand ∧
    h' !! l = Some (narrow_term_dict operator operand).

(** One new dict per bot type, in order. *)
Definition describes_bot_type (u : UserProfile) (h h' : heap)
    (item : Z * string) (v : value) : Prop :=
  ∃ l, v = VRef l ∧ h !! l = None ∧
       h' !! l = Some (bot_type_dict u item.1 item.2).

(** * A concrete world

    One organisation on the Limited plan with a billing customer, a
    stream with the messages 5, 9 and 3, and a registration that turns
    desktop notifications on. *)

Definition demo_settings : Settings :=
  {| CORPORATE_ENABLED := true;
     PROMOTE_SPONSORING_ZULIP := true;
     TWO_FACTOR_AUTHENTICATION_ENABLED := false;
     TEST_SUITE := false;
     HOME_NOT_LOGGED_IN := "/login/";
     WARN_NO_EMAIL := false;
     SEARCH_PILLS_ENABLED := false |}.

Definition demo_consts : ModelConstants :=
  {| Realm_SELF_HOSTED := 1;
     Realm_LIMITED := 2;
     Realm_STANDARD_FREE := 4;
     COLOR_SCHEME_AUTOMATIC := 1;
     BOT_TYPES := [(1, "Generic bot"); (2, "Incoming webhook")] |}.

Definition demo_realm : Realm :=
  {| realm_id := 7; plan_type := 2; webathena_enabled := false |}.

Definition demo_owner : UserProfile :=
  {| user_id := 10; color_scheme := 2; is_guest := false;
     is_realm_admin := true; is_realm_owner := true;
     has_billing_access := true; allowed_bot_types := [1; 2];
     realm := demo_realm |}.

Definition demo_guest : UserProfile :=
  {| user_id := 12; color_scheme := 1; is_guest := true;
     is_realm_admin := false; is_realm_owner := false;
     has_billing_access := false; allowed_bot_types := [];
     realm := demo_realm |}.

Definition demo_billing : BillingStore :=
  {| customers :=
       [{| customer_id := 1; customer_realm := 7;
           sponsorship_pending := false |}];
     customer_plans := [{| plan_id := 1; plan_customer := 1 |}] |}.

Definition empty_billing : BillingStore :=
  {| customers := []; customer_plans := [] |}.

Definition demo_stream : Stream :=
  {| stream_name := "devel"; recipient := 11 |}.

Definition quiet_stream : Stream :=
  {| stream_name := "quiet"; recipient := 13 |}.

Definition demo_messages : list Message :=
  [{| message_id := 5; message_recipient := 11 |};
   {| message_id := 9; message_recipient := 11 |};
   {| message_id := 12; message_recipient := 12 |};
   {| message_id := 3; message_recipient := 11 |}].

Definition demo_last_visit : datetime :=
  {| dt_year := 2021; dt_month := 11; dt_day := 3;
     dt_hour := 15; dt_minute := 25; dt_second := 0; dt_microsecond := 0;
     dt_utcoffset := Some 0 |}.

(** The state both event paths of the concrete world build: a
    [user_settings] dict with desktop notifications on, inside a state dict
    that carries the queue id. *)
Definition demo_state (queue_id : value) : M value :=
  user_settings <- alloc (list_to_map
      [("default_language", VStr "en");
       ("enable_desktop_notifications", VBool true)]) ;;
  state <- alloc (list_to_map
      [("queue_id", queue_id);
       ("user_settings", VRef user_settings);
       ("max_message_id", VInt 12);
       ("realm_name", VStr "Demo")]) ;;
  ret (VRef state).

(** Python's [calendar.timegm]. *)
Definition days_before_year (year : Z) : Z :=
  let y := year - 1 in y * 365 + y / 4 - y / 100 + y / 400.

Definition is_leap (year : Z) : bool :=
  (year mod 4 =? 0) && (negb (year mod 100 =? 0) || (year mod 400 =? 0)).

Definition days_before_month (year month : Z) : Z :=
  nth (Z.to_nat (month - 1))
      [0; 31; 59; 90; 120; 151; 181; 212; 243; 273; 304; 334] 0
  + (if (2 <? month) && is_leap year then 1 else 0).

Definition python_timegm (t : struct_time) : Z :=
  let days :=
    days_before_year (tm_year t) + days_before_month (tm_year t) (tm_mon t)
    + 1 - 719163 + tm_mday t - 1 in
  ((days * 24 + tm_hour t) * 60 + tm_min t) * 60 + tm_sec t.

(** Python's [date.toordinal] and [date.fromordinal] (the proleptic
    Gregorian ordinal, day 1 being 0001-01-01). *)
Definition ymd2ord (year month day : Z) : Z :=
  days_before_year year + days_before_month year month + day.

Definition days_in_month (month : Z) (leapyear : bool) : Z :=
  nth (Z.to_nat (month - 1)) [31; 28; 31; 30; 31; 30; 31; 31; 30; 31; 30; 31] 0
  + (if (month =? 2) && leapyear then 1 else 0).

Definition ord2ymd (ordinal : Z) : Z * Z * Z :=
  let n := ordinal - 1 in
  let n400 := n / 146097 in
  let n := n mod 146097 in
  let n100 := n / 36524 in
  let n := n mod 36524 in
  let n4 := n / 1461 in
  let n := n mod 1461 in
  let n1 := n / 365 in
  let n := n mod 365 in
  let year := n400 * 400 + 1 + n100 * 100 + n4 * 4 + n1 in
  if (n1 =? 4) || (n100 =? 4) then (year - 1, 12, 31)
  else
    let leapyear := (n1 =? 3) && (negb (n4 =? 24) || (n100 =? 3)) in
    let month := Z.shiftr (n + 50) 5 in
    let preceding :=
      nth (Z.to_nat (month - 1))
          [0; 31; 59; 90; 120; 151; 181; 212; 243; 273; 304; 334] 0
      + (if (2 <? month) && leapyear then 1 else 0) in
    let '(month, preceding) :=
      if n <? preceding
      then (month - 1, preceding - days_in_month (month - 1) leapyear)
      else (month, preceding) in
    (year, month, n - preceding + 1).

(** Python's [datetime.utctimetuple]: the fields of the datetime, moved
    back by its UTC offset when it has one that is not zero.  (Python
    raises [OverflowError] when that leaves the years 1 to 9999.) *)
Definition utc_fields (dt : datetime) : struct_time :=
  let as_is :=
    {| tm_year := dt_year dt; tm_mon := dt_month dt; tm_mday := dt_day dt;
       tm_hour := dt_hour dt; tm_min := dt_minute dt;
       tm_sec := dt_second dt |} in
  match dt_utcoffset dt with
  | None => as_is
  | Some offset =>
      if offset =? 0 then as_is
      else
        let seconds :=
          ymd2ord (dt_year dt) (dt_month dt) (dt_day dt) * 86400
          + dt_hour dt * 3600 + dt_minute dt * 60 + dt_second dt - offset in
        let '(year, month, day) := ord2ymd (seconds / 86400) in
        let seconds := seconds mod 86400 in
        {| tm_year := year; tm_mon := month; tm_mday := day;
           tm_hour := seconds / 3600; tm_min := seconds mod 3600 / 60;
           tm_sec := seconds mod 60 |}
  end.

Definition demo_world : World :=
  {| settings := demo_settings;
     consts := demo_consts;
     billing := demo_billing;
     messages := demo_messages;
     get_latest_update_message_flag_activity := λ u,
       if user_id u =? 10 then Some {| last_visit := demo_last_visit |}
       else None;
     do_events_register := λ _ _ _, demo_state (VStr "1636000000:0");
     fetch_initial_state_data := λ _ args,
       demo_state (match fa_queue_id args with
                   | Some q => VStr q
                   | None => VNone
                   end);
     post_process_state := λ _ _ _, ret tt;
     get_and_set_request_language := λ _ configured from_path,
       match from_path, configured with
       | Some language, _ => language
       | None, VStr language => language
       | None, _ => "en"
       end;
     get_language_from_path := λ _, None;
     get_language_list :=
       [list_to_map [("code", VStr "en"); ("name", VStr "English")];
        list_to_map [("code", VStr "de"); ("name", VStr "Deutsch")]];
     get_language_translation_data := λ _, ∅;
     get_apps_page_url := "/apps/";
     default_device := λ _, None;
     time_time := Qmake 1636000000 1;
     utctimetuple := utc_fields;
     timegm := python_timegm |}.

Definition demo_request : HttpRequest :=
  {| path_info := "/"; notes_client := Some {| client_name := "website" |} |}.

Definition demo_narrow : list (list string) := [["stream"; "devel"]].

(** The owner opens the home view narrowed to the stream. *)
Definition demo_narrow_build : outcome (value * value) * heap :=
  build_page_params_for_home_page_load demo_world demo_request
    (Some demo_owner) demo_realm false demo_narrow (Some demo_stream) None
    false false false ∅.

(** The registration step of that build. *)
Definition demo_registration : outcome value * heap :=
  register_or_fetch demo_world demo_request (Some demo_owner) demo_realm
    demo_narrow ∅.

(** A spectator opens the home view. *)
Definition demo_spectator_build : outcome (value * value) * heap :=
  build_page_params_for_home_page_load demo_world demo_request
    None demo_realm false [] None None false false false ∅.

(** A member of the same organisation without billing access. *)
Definition demo_member : UserProfile :=
  {| user_id := 11; color_scheme := 1; is_guest := false;
     is_realm_admin := false; is_realm_owner := false;
     has_billing_access := false; allowed_bot_types := [1];
     realm := demo_realm |}.

(** The same stream under another name. *)
Definition renamed_stream : Stream :=
  {| stream_name := "development"; recipient := 11 |}.

(** A store with a [page_params] dict at 1 and its [user_settings] at 2. *)
Definition demo_user_settings : gmap string value :=
  list_to_map [("enable_desktop_notifications", VBool true)].

Definition demo_page : gmap string value :=
  list_to_map [("user_settings", VRef 2%positive);
               ("max_message_id", VInt 100);
               ("narrow_topic", VStr "old")].

Definition demo_store : heap :=
  <[1%positive := demo_page]> (<[2%positive := demo_user_settings]> ∅).

(** A [page_params] dict whose [user_settings] is a number. *)
Definition odd_page : gmap string value :=
  list_to_map [("user_settings", VInt 0)].

Definition odd_store : heap := <[1%positive := odd_page]> ∅.

Definition demo_override : outcome unit * heap :=
  narrow_override demo_world (VRef 1%positive) demo_narrow demo_stream
    (Some "lunch") demo_store.



(** A world whose registration returns an empty state. *)
Definition bare_world : World :=
  {| settings := settings demo_world; consts := consts demo_world;
     billing := billing demo_world; messages := messages demo_world;
     get_latest_update_message_flag_activity :=
       get_latest_update_message_flag_activity demo_world;
     do_events_register := λ _ _ _, l <- alloc ∅ ;; ret (VRef l);
     fetch_initial_state_data := fetch_initial_state_data demo_world;
     post_process_state := post_process_state demo_world;
     get_and_set_request_language := get_and_set_request_language demo_world;
     get_language_from_path := get_language_from_path demo_world;
     get_language_list := get_language_list demo_world;
     get_language_translation_data :=
       get_language_translation_data demo_world;
     get_apps_page_url := get_apps_page_url demo_world;
     default_device := default_device demo_world;
     time_time := time_time demo_world;
     utctimetuple := utctimetuple demo_world;
     timegm := timegm demo_world |}.

Definition bare_registration : outcome value * heap :=
  register_or_fetch bare_world demo_request (Some demo_owner) demo_realm
    demo_narrow ∅.

(** * Properties *)

(** ** BillingPolicy *)

Lemma get_customer_by_realm_Some b r c :
  get_customer_by_realm b r = Some c →
  c ∈ customers b ∧ customer_realm c = realm_id r.
Proof.
  unfold get_customer_by_realm. intros H.
  apply find_some in H as [Hin Heq].
  split; [by apply list_elem_of_In | by apply Z.eqb_eq].
Qed.

Lemma get_customer_by_realm_None b r :
  get_customer_by_realm b r = None ↔
  ∀ c, c ∈ customers b → customer_realm c ≠ realm_id r.
Proof.
  unfold get_customer_by_realm. split.
  - intros H c Hin Heq. apply list_elem_of_In in Hin.
    pose proof (find_none _ _ H c Hin) as Hc. simpl in Hc.
    apply Z.eqb_neq in Hc. done.
  - intros H. destruct (List.find _ _) as [c|] eqn:E; [|done].
    apply find_some in E as [Hin Heq].
    apply list_elem_of_In in Hin. apply Z.eqb_eq in Heq.
    by destruct (H c Hin).
Qed.

Lemma customer_plan_exists_true b c :
  customer_plan_exists b c = true ↔
  ∃ p, p ∈ customer_plans b ∧ plan_customer p = customer_id c.
Proof.
  unfold customer_plan_exists. rewrite existsb_exists. split.
  - intros (p & Hin & Heq). exists p.
    split; [by apply list_elem_of_In | by apply Z.eqb_eq].
  - intros (p & Hin & Heq). exists p.
    split; [by apply list_elem_of_In | by apply Z.eqb_eq].
Qed.

Lemma show_billing_true_iff w user_profile :
  show_billing (get_billing_info w user_profile) = true ↔
  billing_visible w user_profile.
Proof.
  unfold billing_visible, get_billing_info, get_billing_info_logged.
  destruct user_profile as [u|]; simpl.
  2:{ split; [done | by intros (_ & u & ? & _)]. }
  destruct (CORPORATE_ENABLED (settings w)); simpl.
  2:{ split; [done | by intros [? _]]. }
  destruct (has_billing_access u) eqn:Hacc; simpl.
  2:{ split; [done | intros (_ & u' & [= <-] & ? & _); congruence]. }
  destruct (get_customer_by_realm (billing w) (realm u)) as [c|] eqn:Hc; simpl.
  2:{ split; [done | intros (_ & u' & [= <-] & _ & c & ? & _); congruence]. }
  destruct (sponsorship_pending c) eqn:Hsp; simpl.
  { split; [|done]. intros _. split; [done|].
    exists u. do 2 (split; [done|]). exists c. split; [done|]. by left. }
  destruct (customer_plan_exists (billing w) c) eqn:Hpl; simpl.
  - split; [|done]. intros _. split; [done|].
    exists u. do 2 (split; [done|]). exists c. split; [done|].
    right. by apply customer_plan_exists_true.
  - split; [done|].
    intros (_ & u' & [= <-] & _ & c' & Hc' & [Hs|Hp]).
    + congruence.
    + assert (c' = c) as -> by congruence.
      apply customer_plan_exists_true in Hp. congruence.
Qed.

(** C1: [show_billing] is true exactly when the corporate feature is
    enabled, an identity is present and has billing access, a customer
    record exists for its realm, and that customer has a pending
    sponsorship or at least one plan record; it is false for every other
    combination. *)
Theorem get_billing_info_show_billing (w : World)
    (user_profile : option UserProfile) :
  (show_billing (get_billing_info w user_profile) = true ↔
   billing_visible w user_profile) ∧
  (show_billing (get_billing_info w user_profile) = false ↔
   ¬ billing_visible w user_profile).
Proof.
  pose proof (show_billing_true_iff w user_profile) as H.
  split; [done|].
  destruct (show_billing (get_billing_info w user_profile)).
  - split; [done|]. intros Hn. destruct Hn. by apply H.
  - split; [|done]. intros _ Hv. apply H in Hv. done.
Qed.

(** C5: [show_plans] is true exactly when the corporate feature is enabled,
    an identity is present, it is not a guest and its realm's plan type is
    Limited; an authenticated guest never sees the plans, whatever the plan
    type. *)
Theorem get_billing_info_show_plans (w : World)
    (user_profile : option UserProfile) :
  (show_plans (get_billing_info w user_profile) = true ↔
   CORPORATE_ENABLED (settings w) = true ∧
   ∃ u, user_profile = Some u ∧ is_guest u = false ∧
        plan_type (realm u) = Realm_LIMITED (consts w)) ∧
  (∀ u, user_profile = Some u → is_guest u = true →
        show_plans (get_billing_info w user_profile) = false).
Proof.
  unfold get_billing_info, get_billing_info_logged.
  destruct user_profile as [u|]; simpl.
  2:{ split; [|done]. split; [done | by intros (_ & u & ? & _)]. }
  destruct (CORPORATE_ENABLED (settings w)); simpl.
  2:{ split; [|by intros]. split; [done | by intros [? _]]. }
  match goal with
  | |- context [if has_billing_access u then ?a else ?b] =>
      destruct (if has_billing_access u then a else b) as [sb q]
  end; simpl.
  destruct (is_guest u) eqn:Hg; simpl.
  { split; [|done].
    split; [done | intros (_ & u' & [= <-] & ? & _); congruence]. }
  destruct (plan_type (realm u) =? Realm_LIMITED (consts w)) eqn:Hp; simpl.
  - apply Z.eqb_eq in Hp. split; [|by intros ? [= <-]; congruence].
    split; [|done]. intros _. split; [done|]. by exists u.
  - apply Z.eqb_neq in Hp. split; [|by intros ? [= <-]; congruence].
    split; [done|]. intros (_ & u' & [= <-] & _ & ?). done.
Qed.

(** C10: when the corporate feature is off, the identity is absent or it
    lacks billing access, no query reaches the billing subsystem and the
    result does not depend on the billing store; [show_billing] is false. *)
Theorem get_billing_info_ignores_billing_store (w : World)
    (b1 b2 : BillingStore) (user_profile : option UserProfile) :
  CORPORATE_ENABLED (settings w) = false ∨ user_profile = None ∨
    (∃ u, user_profile = Some u ∧ has_billing_access u = false) →
  (get_billing_info_logged (with_billing w b1) user_profile).2 = [] ∧
  get_billing_info (with_billing w b1) user_profile
    = get_billing_info (with_billing w b2) user_profile ∧
  show_billing (get_billing_info (with_billing w b1) user_profile) = false.
Proof.
  unfold get_billing_info, get_billing_info_logged.
  intros [Hc | [-> | (u & -> & Hacc)]]; simpl.
  - rewrite Hc. by destruct user_profile.
  - done.
  - rewrite Hacc. by destruct (CORPORATE_ENABLED (settings w)).
Qed.

(** ** PermissionProjector and ReadStateResolver *)

(** C7: without an identity the permission info is the fixed anonymous
    default; with one, the four identity fields are copied and
    [show_webathena] is the realm's [webathena_enabled]. *)
Theorem get_user_permission_info_spec (w : World) :
  get_user_permission_info w None
    = {| upi_color_scheme := COLOR_SCHEME_AUTOMATIC (consts w);
         upi_is_guest := false; upi_is_realm_admin := false;
         upi_is_realm_owner := false; upi_show_webathena := false |} ∧
  ∀ u, let info := get_user_permission_info w (Some u) in
       upi_color_scheme info = color_scheme u ∧
       upi_is_guest info = is_guest u ∧
       upi_is_realm_admin info = is_realm_admin u ∧
       upi_is_realm_owner info = is_realm_owner u ∧
       upi_show_webathena info = webathena_enabled (realm u).
Proof. split; [reflexivity | intros u; repeat split]. Qed.

(** C4: an absent identity reads as caught up to the clock's current time,
    which is not null; an identity without an update-message-flag activity
    gives null; otherwise the result is the activity's last visit as a UTC
    epoch timestamp. *)
Theorem get_furthest_read_time_spec (w : World) :
  (get_furthest_read_time w None = VFloat (time_time w) ∧
   get_furthest_read_time w None ≠ VNone) ∧
  ∀ u,
    match get_latest_update_message_flag_activity w u with
    | None => get_furthest_read_time w (Some u) = VNone
    | Some user_activity =>
        get_furthest_read_time w (Some u)
          = VInt (timegm w (utctimetuple w (last_visit user_activity)))
    end.
Proof.
  split; [split; [reflexivity | discriminate] |].
  intros u. unfold get_furthest_read_time.
  by destruct (get_latest_update_message_flag_activity w u).
Qed.

(** ** NarrowOverride: the latest message of the stream *)

Section LatestMessage.

Implicit Types (m : Message) (ms : list Message).

Lemma elem_of_insert_by_id m m' ms :
  m' ∈ insert_by_id m ms ↔ m' = m ∨ m' ∈ ms.
Proof.
  induction ms as [|a ms IH]; simpl.
  - rewrite list_elem_of_singleton. set_solver.
  - destruct (message_id m <=? message_id a).
    + by rewrite elem_of_cons.
    + rewrite !elem_of_cons, IH. tauto.
Qed.

Lemma elem_of_order_by_id m ms : m ∈ order_by_id ms ↔ m ∈ ms.
Proof.
  induction ms as [|a ms IH]; simpl; [done|].
  rewrite elem_of_insert_by_id, elem_of_cons, IH. done.
Qed.

Lemma ascending_insert_by_id m ms :
  ascending ms → ascending (insert_by_id m ms).
Proof.
  induction 1 as [|a ms Ha Hms IH]; simpl.
  - constructor; [by intros ? ?%elem_of_nil | constructor].
  - destruct (message_id m <=? message_id a) eqn:Hle.
    + apply Z.leb_le in Hle. constructor; [|by constructor].
      intros m' [->|Hin]%elem_of_cons; [done|].
      specialize (Ha m' Hin). lia.
    + apply Z.leb_gt in Hle. constructor; [|done].
      intros m' [->|Hin]%elem_of_insert_by_id; [lia | by apply Ha].
Qed.

Lemma ascending_order_by_id ms : ascending (order_by_id ms).
Proof.
  induction ms; simpl; [constructor | by apply ascending_insert_by_id].
Qed.

(** The first row of the reversed result is the last row. *)
Lemma first_row_rev_cons m ms :
  first_row (rev (m :: ms))
    = match ms with [] => Ok m | _ => first_row (rev ms) end.
Proof.
  simpl. destruct ms as [|a ms]; [done|].
  simpl. destruct (rev ms ++ [a]) eqn:E; [|done].
  by destruct (rev ms).
Qed.

Lemma first_row_rev_ascending ms :
  ascending ms →
  match first_row (rev ms) with
  | Ok m => m ∈ ms ∧ ∀ m', m' ∈ ms → message_id m' ≤ message_id m
  | Raise e => e = IndexError ∧ ms = []
  end.
Proof.
  induction 1 as [|a ms Ha Hms IH]; [done|].
  rewrite first_row_rev_cons. destruct ms as [|b ms].
  - split; [set_solver|]. intros m' ->%list_elem_of_singleton. lia.
  - destruct (first_row (rev (b :: ms))) as [m|e]; [|by destruct IH].
    destruct IH as [Hin Hmax]. split; [set_solver|].
    intros m' [->|Hin']%elem_of_cons; [by apply Ha | by apply Hmax].
Qed.

Lemma elem_of_filter_recipient m ms r :
  m ∈ filter_recipient ms r ↔ m ∈ ms ∧ message_recipient m = r.
Proof.
  unfold filter_recipient.
  rewrite !list_elem_of_In, filter_In, Z.eqb_eq. done.
Qed.

End LatestMessage.

(** The lookup of lines 226-231 on its own: it never raises; for a stream
    without messages it gives the sentinel -1, otherwise the greatest id
    among the messages addressed to the stream's recipient. *)
Lemma narrow_max_message_id_spec (w : World) (s : Stream) :
  (∃ n, narrow_max_message_id w s = Ok n) ∧
  ((∀ m, m ∈ messages w → message_recipient m ≠ recipient s) →
   narrow_max_message_id w s = Ok (-1)) ∧
  ((∃ m, m ∈ messages w ∧ message_recipient m = recipient s) →
   ∃ m, m ∈ messages w ∧ message_recipient m = recipient s ∧
        narrow_max_message_id w s = Ok (message_id m) ∧
        ∀ m', m' ∈ messages w → message_recipient m' = recipient s →
              message_id m' ≤ message_id m).
Proof.
  unfold narrow_max_message_id.
  pose proof (first_row_rev_ascending _
    (ascending_order_by_id (filter_recipient (messages w) (recipient s))))
    as H.
  destruct (first_row _) as [m|e].
  - destruct H as [Hin Hmax].
    apply elem_of_order_by_id, elem_of_filter_recipient in Hin as [Hin Hr].
    split; [by eexists|]. split.
    + intros Hnone. by destruct (Hnone m Hin).
    + intros _. exists m. do 3 (split; [done|]).
      intros m' Hin' Hr'. apply Hmax.
      by apply elem_of_order_by_id, elem_of_filter_recipient.
  - destruct H as [-> Hnil]. split; [by eexists|]. split; [done|].
    intros (m & Hin & Hr).
    assert (m ∈ order_by_id (filter_recipient (messages w) (recipient s)))
      as Hm by by apply elem_of_order_by_id, elem_of_filter_recipient.
    rewrite Hnil in Hm. by apply elem_of_nil in Hm.
Qed.

(** ** Running statements against the store *)

Section Store.

Implicit Types (h : heap) (d : gmap string value) (l : loc) (v : value).

Lemma foldr_max_bound (kvs : list (loc * gmap string value)) l d :
  (l, d) ∈ kvs →
  (l ≤ foldr (λ kv acc, Pos.max kv.1 acc) 1 kvs)%positive.
Proof.
  induction kvs as [|[l' d'] kvs IH]; simpl.
  - by intros ?%elem_of_nil.
  - intros [[= <- <-]|Hin]%elem_of_cons; [apply Pos.le_max_l|].
    etrans; [by apply IH | apply Pos.le_max_r].
Qed.

Lemma fresh_loc_bound h l : is_Some (h !! l) → (l < fresh_loc h)%positive.
Proof.
  intros [d Hd]. apply elem_of_map_to_list in Hd.
  apply foldr_max_bound in Hd. unfold fresh_loc. lia.
Qed.

Lemma fresh_loc_None h : h !! fresh_loc h = None.
Proof.
  destruct (h !! fresh_loc h) eqn:E; [|done].
  assert (is_Some (h !! fresh_loc h)) as Hs by by eexists.
  apply fresh_loc_bound in Hs. lia.
Qed.

Lemma fresh_loc_ne h l : is_Some (h !! l) → l ≠ fresh_loc h.
Proof. intros Hs ->. rewrite fresh_loc_None in Hs. by destruct Hs. Qed.

Lemma bind_Ok {A B} (m : M A) (k : A → M B) h b h' :
  bind m k h = (Ok b, h') ↔
  ∃ a h1, m h = (Ok a, h1) ∧ k a h1 = (Ok b, h').
Proof.
  unfold bind. destruct (m h) as [[a|e] h1].
  - split; [by exists a, h1 | by intros (? & ? & [= <- <-] & ?)].
  - split; [done | by intros (? & ? & ? & ?)].
Qed.

Lemma ret_Ok {A} (a b : A) h h' : ret a h = (Ok b, h') ↔ b = a ∧ h' = h.
Proof. unfold ret. split; [by intros [= <- <-] | by intros [-> ->]]. Qed.

Lemma getitem_Ok v k h x h' :
  getitem v k h = (Ok x, h') ↔
  h' = h ∧ ∃ l d, v = VRef l ∧ h !! l = Some d ∧ d !! k = Some x.
Proof.
  unfold getitem. split.
  - destruct v; try done. destruct (h !! l) as [d|] eqn:Hl; [|done].
    destruct (d !! k) as [y|] eqn:Hk; [|done].
    intros [= <- <-]. split; [done|]. by exists l, d.
  - intros (-> & l & d & -> & -> & ->). done.
Qed.

Lemma setitem_Ok v k x h u h' :
  setitem v k x h = (Ok u, h') ↔
  ∃ l d, v = VRef l ∧ h !! l = Some d ∧ h' = <[l := <[k := x]> d]> h.
Proof.
  unfold setitem. split.
  - destruct v; try done. destruct (h !! l) as [d|] eqn:Hl; [|done].
    intros [= <- <-]. by exists l, d.
  - intros (l & d & -> & -> & ->). by destruct u.
Qed.

Lemma alloc_Ok d h l h' :
  alloc d h = (Ok l, h') ↔ l = fresh_loc h ∧ h' = <[l := d]> h.
Proof.
  unfold alloc. split; [by intros [= <- <-] | by intros [-> ->]].
Qed.

Lemma allocates_only_ret {A} (a : A) : allocates_only (ret a).
Proof. by intros h o h' [= <- <-]. Qed.

Lemma allocates_only_raise {A} e : allocates_only (@raise A e).
Proof. by intros h o h' [= <- <-]. Qed.

Lemma allocates_only_alloc d : allocates_only (alloc d).
Proof.
  intros h o h' [= <- <-]. apply insert_subseteq, fresh_loc_None.
Qed.

Lemma allocates_only_index {A} (xs : list A) i :
  allocates_only (index xs i).
Proof.
  unfold index. destruct (xs !! i);
    [apply allocates_only_ret | apply allocates_only_raise].
Qed.

Lemma allocates_only_bind {A B} (m : M A) (k : A → M B) :
  allocates_only m → (∀ a, allocates_only (k a)) →
  allocates_only (bind m k).
Proof.
  intros Hm Hk h o h'. unfold bind.
  destruct (m h) as [[a|e] h1] eqn:E.
  - intros Hka. etrans; [by eapply Hm | by eapply Hk].
  - intros [= <- <-]. by eapply Hm.
Qed.

Lemma allocates_only_comprehension {A B} (xs : list A) (f : A → M B) :
  (∀ x, allocates_only (f x)) → allocates_only (comprehension xs f).
Proof.
  intros Hf. induction xs as [|x xs IH]; simpl.
  - apply allocates_only_ret.
  - apply allocates_only_bind; [done|]. intros y.
    apply allocates_only_bind; [done|]. intros ys.
    apply allocates_only_ret.
Qed.

Lemma allocates_only_for_acc {A S} (xs : list A) (s : S)
    (body : S → A → M S) :
  (∀ s x, allocates_only (body s x)) → allocates_only (for_acc xs s body).
Proof.
  intros Hb. revert s. induction xs as [|x xs IH]; intros s; simpl.
  - apply allocates_only_ret.
  - apply allocates_only_bind; [done|]. intros s'. apply IH.
Qed.

Lemma allocates_only_get_bot_types w user_profile :
  allocates_only (get_bot_types w user_profile).
Proof.
  unfold get_bot_types. destruct user_profile as [u|].
  - apply allocates_only_for_acc. intros s [type_id name].
    apply allocates_only_bind; [apply allocates_only_alloc|].
    intros l. apply allocates_only_ret.
  - apply allocates_only_ret.
Qed.

Lemma allocates_only_lookup {A} (m : M A) h o h' l d :
  allocates_only m → m h = (o, h') → h !! l = Some d → h' !! l = Some d.
Proof. intros Hm E Hl. by eapply lookup_weaken; [|eapply Hm]. Qed.

End Store.

(** ** The merge of the registration result (lines 220-221) *)

Section Merge.

Implicit Types (h : heap) (reg c : gmap string value) (lr p : loc).

Lemma for_each_merge lr p reg ks : ∀ h c,
  lr ≠ p → h !! lr = Some reg → h !! p = Some c →
  (∀ k, k ∈ ks → is_Some (reg !! k)) →
  ∃ c', for_each ks (λ field_name,
               v <- getitem (VRef lr) field_name ;;
               setitem (VRef p) field_name v) h
          = (Ok tt, <[p := c']> h) ∧
        ∀ k, c' !! k = if decide (k ∈ ks) then reg !! k else c !! k.
Proof.
  induction ks as [|k ks IH]; intros h c Hne Hlr Hp Hks; simpl.
  - exists c. split; [by rewrite insert_id | done].
  - destruct (Hks k) as [v Hv]; [set_solver|].
    unfold bind at 1. unfold bind at 1. unfold getitem at 1.
    rewrite Hlr, Hv. unfold setitem at 1. rewrite Hp.
    destruct (IH (<[p := <[k := v]> c]> h) (<[k := v]> c)) as (c' & E & Hc').
    + done.
    + by rewrite lookup_insert_ne.
    + by rewrite lookup_insert_eq.
    + intros k' Hin. apply Hks. set_solver.
    + exists c'. rewrite E, insert_insert_eq. split; [done|].
      intros k'. rewrite Hc'.
      destruct (decide (k' = k)) as [->|Hk].
      * rewrite lookup_insert_eq, Hv.
        rewrite (decide_True (P := k ∈ k :: ks)) by set_solver.
        by destruct (decide (k ∈ ks)).
      * rewrite lookup_insert_ne by done.
        destruct (decide (k' ∈ ks)).
        -- by rewrite decide_True by set_solver.
        -- by rewrite decide_False by set_solver.
Qed.

Lemma elem_of_dict_keys reg k :
  k ∈ (map_to_list reg).*1 ↔ is_Some (reg !! k).
Proof.
  rewrite list_elem_of_fmap. split.
  - intros ([k' v] & -> & Hin). apply elem_of_map_to_list in Hin.
    by exists v.
  - intros [v Hv]. exists (k, v). split; [done|].
    by apply elem_of_map_to_list.
Qed.

(** Every key of the registration result lands in [page_params], on top
    of the computed field of the same name. *)
Lemma merge_register_ret_run lr p reg c h :
  lr ≠ p → h !! lr = Some reg → h !! p = Some c →
  merge_register_ret (VRef lr) (VRef p) h = (Ok tt, <[p := reg ∪ c]> h).
Proof.
  intros Hne Hlr Hp. unfold merge_register_ret. unfold bind at 1.
  unfold keys. rewrite Hlr.
  destruct (for_each_merge lr p reg (map_to_list reg).*1 h c)
    as (c' & E & Hc'); [done..| |].
  { intros k. by rewrite elem_of_dict_keys. }
  rewrite E. do 2 f_equal. apply map_eq. intros k. rewrite Hc'.
  destruct (reg !! k) as [v|] eqn:Hk.
  - rewrite decide_True by (rewrite elem_of_dict_keys; by eexists).
    symmetry. by apply lookup_union_Some_l.
  - rewrite decide_False.
    + symmetry. by rewrite lookup_union_r.
    + rewrite elem_of_dict_keys, Hk. by intros [??].
Qed.

End Merge.

(** ** The narrow override against the store *)

Section NarrowOverride.

Implicit Types (h : heap) (d : gmap string value) (p l : loc).

Lemma narrow_max_message_id_Ok w s : ∃ n, narrow_max_message_id w s = Ok n.
Proof.
  unfold narrow_max_message_id.
  pose proof (first_row_rev_ascending _
    (ascending_order_by_id (filter_recipient (messages w) (recipient s))))
    as H.
  destruct (first_row _) as [m|e]; [by eexists|].
  destruct H as [-> _]. by eexists.
Qed.

Lemma setitem_run p d k x h :
  h !! p = Some d →
  setitem (VRef p) k x h = (Ok tt, <[p := <[k := x]> d]> h).
Proof. intros Hp. unfold setitem. by rewrite Hp. Qed.

Lemma allocates_only_encode_narrow narrow :
  allocates_only (encode_narrow narrow).
Proof.
  apply allocates_only_comprehension. intros term.
  apply allocates_only_bind; [apply allocates_only_index|]. intros op.
  apply allocates_only_bind; [apply allocates_only_index|]. intros opd.
  apply allocates_only_bind; [apply allocates_only_alloc|]. intros l.
  apply allocates_only_ret.
Qed.

Lemma comprehension_outcome {A B} (f : A → M B) (good : A → bool) xs :
  (∀ x h, match (f x h).1 with
          | Ok _ => good x = true
          | Raise e => e = IndexError ∧ good x = false
          end) →
  ∀ h, match (comprehension xs f h).1 with
       | Ok _ => forallb good xs = true
       | Raise e => e = IndexError ∧ forallb good xs = false
       end.
Proof.
  intros Hf. induction xs as [|x xs IH]; intros h; [done|].
  cbn [comprehension forallb]. unfold bind at 1.
  specialize (Hf x h). destruct (f x h) as [[y|e] h1]; cbn [fst] in *.
  - unfold bind at 1. specialize (IH h1).
    destruct (comprehension xs f h1) as [[ys|e] h2]; cbn [fst] in *.
    + by rewrite Hf, IH.
    + destruct IH as [-> ->]. split; [done | apply andb_false_r].
  - destruct Hf as [-> ->]. done.
Qed.

(** Whether the encoding raises depends on the terms only. *)
Lemma encode_narrow_outcome narrow h :
  match (encode_narrow narrow h).1 with
  | Ok _ => narrow_well_formed narrow = true
  | Raise e => e = IndexError ∧ narrow_well_formed narrow = false
  end.
Proof.
  apply comprehension_outcome. clear. intros term h.
  by destruct term as [|operator [|operand term]].
Qed.

(** The last step rewrites one key of one dict. *)
Lemma force_desktop_notifications_off_Ok pv h u h' :
  force_desktop_notifications_off pv h = (Ok u, h') →
  ∃ p d lu dus,
    pv = VRef p ∧ h !! p = Some d ∧
    d !! "user_settings" = Some (VRef lu) ∧ h !! lu = Some dus ∧
    h' = <[lu := <["enable_desktop_notifications" := VBool false]> dus]> h.
Proof.
  unfold force_desktop_notifications_off.
  intros (us & h1 & E1 & H)%bind_Ok.
  apply getitem_Ok in E1 as (-> & p & d & -> & Hp & Hus).
  apply bind_Ok in H as (b & h2 & E2 & H).
  apply bind_Ok in H as ([] & h3 & E3 & H).
  apply bind_Ok in H as (us' & h4 & E4 & H).
  apply getitem_Ok in E4 as (-> & p' & d' & [= <-] & Hp' & Hus').
  apply setitem_Ok in H as (lu & dus & -> & Hlu & ->).
  unfold isinstance_dict in E2. destruct us as [| | | | | |lu0]; simplify_eq.
  case_bool_decide; [|done]. apply ret_Ok in E3 as [_ ->].
  exists p, d, lu0, dus. by simplify_eq.
Qed.

Lemma force_desktop_notifications_off_frame p d h :
  h !! p = Some d →
  ∃ d', (force_desktop_notifications_off (VRef p) h).2 !! p = Some d' ∧
        ∀ k, k ≠ "enable_desktop_notifications" → d' !! k = d !! k.
Proof.
  intros Hp. unfold force_desktop_notifications_off.
  unfold bind at 1. unfold getitem at 1. rewrite Hp.
  destruct (d !! "user_settings") as [us|]; [|by exists d].
  unfold bind at 1. unfold isinstance_dict.
  destruct us as [| | | | | |lu]; try by exists d.
  destruct (h !! lu) as [dus|] eqn:Hlu.
  2:{ rewrite bool_decide_false by (by intros [??]). by exists d. }
  rewrite bool_decide_true by by eexists.
  unfold bind at 1. unfold ret at 1. unfold bind at 1. unfold getitem at 1.
  rewrite Hp.
  destruct (d !! "user_settings") as [us|]; [|by exists d].
  unfold setitem. destruct us as [| | | | | |lu']; try by exists d.
  destruct (h !! lu') as [dus'|] eqn:Hlu'; [|by exists d]. simpl.
  destruct (decide (lu' = p)) as [->|Hne].
  - rewrite lookup_insert_eq. eexists. split; [done|].
    intros k Hk. rewrite lookup_insert_ne by done. congruence.
  - rewrite lookup_insert_ne by done. by exists d.
Qed.

Lemma narrow_override_Ok w pv narrow s topic h u h' :
  narrow_override w pv narrow s topic h = (Ok u, h') →
  ∃ p d n terms hc lu dus,
    pv = VRef p ∧ h !! p = Some d ∧ narrow_max_message_id w s = Ok n ∧
    (∀ l x, h !! l = Some x → l ≠ p → hc !! l = Some x) ∧
    (∀ l x, hc !! l = Some x → l ≠ p → h !! l = None ∨ h !! l = Some x) ∧
    narrow_fields s topic terms n d !! "user_settings" = Some (VRef lu) ∧
    <[p := narrow_fields s topic terms n d]> hc !! lu = Some dus ∧
    h' = <[lu := <["enable_desktop_notifications" := VBool false]> dus]>
           (<[p := narrow_fields s topic terms n d]> hc).
Proof.
  unfold narrow_override.
  intros (n & h0 & E0 & H)%bind_Ok. injection E0 as En <-.
  apply bind_Ok in H as ([] & h1 & E1 & H).
  apply setitem_Ok in E1 as (p & d & -> & Hp & ->).
  apply bind_Ok in H as ([] & h2 & E2 & H).
  apply bind_Ok in H as (terms & hc & E3 & H).
  apply bind_Ok in H as ([] & h4 & E4 & H).
  apply setitem_Ok in E4 as (p4 & d4 & [= <-] & Hp4 & ->).
  apply bind_Ok in H as ([] & h5 & E5 & H).
  apply setitem_Ok in E5 as (p5 & d5 & [= <-] & Hp5 & ->).
  rewrite lookup_insert_eq in Hp5. injection Hp5 as <-.
  rewrite insert_insert_eq in H.
  apply force_desktop_notifications_off_Ok in H
    as (p6 & d6 & lu & dus & [= <-] & Hp6 & Hus & Hlu & ->).
  rewrite lookup_insert_eq in Hp6. injection Hp6 as <-.
  set (d1 := <["narrow_stream" := VStr (stream_name s)]> d) in *.
  set (h1 := <[p := d1]> h) in *.
  assert (∃ d2, h2 = <[p := d2]> h ∧
            d2 = match topic with
                 | Some t => <["narrow_topic" := VStr t]>
                 | None => id
                 end d1) as (d2 & -> & Hd2).
  { destruct topic as [t|].
    - apply setitem_Ok in E2 as (p2 & d2 & [= <-] & Hp2 & ->).
      unfold h1 in *. rewrite lookup_insert_eq in Hp2. injection Hp2 as <-.
      eexists. by rewrite insert_insert_eq.
    - apply ret_Ok in E2 as [_ ->]. by exists d1. }
  pose proof (allocates_only_encode_narrow narrow _ _ _ E3) as Hsub.
  assert (hc !! p = Some d2) as Hcp.
  { eapply lookup_weaken; [|done]. by rewrite lookup_insert_eq. }
  assert (d4 = d2) as -> by congruence.
  exists p, d, n, terms, hc, lu, dus. unfold narrow_fields.
  subst h1 d1. rewrite <- Hd2. repeat split; try done.
  - intros l x Hl Hne. eapply lookup_weaken; [|done].
    by rewrite lookup_insert_ne.
  - intros l x Hl Hne. destruct (h !! l) as [y|] eqn:Hy; [|by left].
    right. f_equal.
    assert (hc !! l = Some y) as Hy'.
    { eapply lookup_weaken; [|done]. by rewrite lookup_insert_ne. }
    congruence.
Qed.

End NarrowOverride.

(** ** The assembler against the store *)

Section Assembler.

Variables (w : World) (request : HttpRequest)
  (user_profile : option UserProfile) (realm : Realm)
  (insecure_desktop_app : bool) (narrow : list (list string))
  (narrow_stream : option Stream) (narrow_topic : option string)
  (first_in_realm prompt_for_invites needs_tutorial : bool).

Implicit Types (h : heap) (d reg : gmap string value) (p l : loc).

#[local] Abbreviation build :=
  (build_page_params_for_home_page_load w request user_profile realm
     insecure_desktop_app narrow narrow_stream narrow_topic
     first_in_realm prompt_for_invites needs_tutorial).

#[local] Abbreviation literal :=
  (page_params_literal w user_profile realm insecure_desktop_app
     first_in_realm prompt_for_invites needs_tutorial).

Lemma build_Ok h qid pv h' :
  build h = (Ok (qid, pv), h') →
  ∃ lr h1 reg lu dus language_list bot_types h2 h3 h6 d6 lang,
    register_or_fetch w request user_profile realm narrow h
      = (Ok (VRef lr), h1) ∧
    h1 !! lr = Some reg ∧ reg !! "user_settings" = Some (VRef lu) ∧
    h1 !! lu = Some dus ∧
    language_list_dicts w h1 = (Ok language_list, h2) ∧
    get_bot_types w user_profile h2 = (Ok bot_types, h3) ∧ h1 ⊆ h3 ∧
    pv = VRef (fresh_loc h3) ∧
    match narrow_stream with
    | Some s =>
        narrow_override w pv narrow s narrow_topic
          (<[fresh_loc h3 := reg ∪ literal language_list bot_types]> h3)
          = (Ok tt, h6)
    | None => h6 = <[fresh_loc h3 := reg ∪ literal language_list bot_types]> h3
    end ∧
    h6 !! fresh_loc h3 = Some d6 ∧
    h' = <[fresh_loc h3 := <["translation_data" := VRef (fresh_loc h6)]> d6]>
           (<[fresh_loc h6 := get_language_translation_data w lang]> h6) ∧
    ∃ regf, h' !! lr = Some regf ∧ regf !! "queue_id" = Some qid.
Proof.
  unfold build_page_params_for_home_page_load.
  intros (r & h1 & E1 & H)%bind_Ok.
  apply bind_Ok in H as (us & h1' & E2 & H).
  apply getitem_Ok in E2 as (-> & lr & reg & -> & Hlr & Hus).
  apply bind_Ok in H as (dl & h1' & E3 & H).
  apply getitem_Ok in E3 as (-> & lu & dus & -> & Hlu & Hdl).
  apply bind_Ok in H as (language_list & h2 & E4 & H).
  apply bind_Ok in H as (bot_types & h3 & E5 & H).
  apply bind_Ok in H as (p & h4 & E6 & H).
  apply alloc_Ok in E6 as [-> ->].
  apply bind_Ok in H as ([] & h5 & E7 & H).
  apply bind_Ok in H as ([] & h6 & E8 & H).
  apply bind_Ok in H as (t & h7 & E9 & H).
  apply alloc_Ok in E9 as [-> ->].
  apply bind_Ok in H as ([] & h8 & E10 & H).
  apply setitem_Ok in E10 as (p' & d6 & [= <-] & Hp6 & ->).
  apply bind_Ok in H as (q & h9 & E11 & H).
  apply getitem_Ok in E11 as (-> & lr' & regf & [= <-] & Hlrf & Hq).
  apply ret_Ok in H as [[= -> ->] ->].
  assert (h1 ⊆ h3) as Hsub.
  { etrans.
    - eapply (allocates_only_comprehension (get_language_list w)); [|apply E4].
      intros d. apply allocates_only_bind; [apply allocates_only_alloc|].
      intros l. apply allocates_only_ret.
    - by eapply allocates_only_get_bot_types. }
  assert (lr ≠ fresh_loc h3) as Hne.
  { apply fresh_loc_ne. exists reg. by eapply lookup_weaken. }
  rewrite (merge_register_ret_run lr (fresh_loc h3) reg
             (literal language_list bot_types)) in E7.
  2: done.
  2: { rewrite lookup_insert_ne by done. by eapply lookup_weaken. }
  2: { by rewrite lookup_insert_eq. }
  apply (f_equal snd) in E7. cbn [snd] in E7. subst h5.
  rewrite insert_insert_eq in E8.
  rewrite lookup_insert_ne in Hp6.
  2:{ intros Heq. pose proof (fresh_loc_None h6) as Hf.
      rewrite Heq in Hf. destruct narrow_stream as [s|].
      - apply narrow_override_Ok in E8
          as (p & d & n & terms & hc & lu' & dus' & [= <-] & _ & _ & _ & _
              & _ & _ & ->).
        destruct (decide (lu' = fresh_loc h3)) as [->|Hlu'].
        + by rewrite lookup_insert_eq in Hf.
        + by rewrite lookup_insert_ne, lookup_insert_eq in Hf.
      - apply ret_Ok in E8 as [_ ->]. by rewrite lookup_insert_eq in Hf. }
  exists lr, h1, reg, lu, dus, language_list, bot_types, h2, h3, h6, d6.
  eexists. do 8 (split; [done|]). split.
  { destruct narrow_stream as [s|]; [done|]. by apply ret_Ok in E8 as [_ ->]. }
  do 2 (split; [done|]). by exists regf.
Qed.

Lemma narrow_fields_lookup_ne s topic terms n d k :
  k ∉ narrow_keys topic →
  narrow_fields s topic terms n d !! k = d !! k.
Proof.
  unfold narrow_keys, narrow_fields. intros Hk.
  rewrite !lookup_insert_ne by set_solver.
  destruct topic as [t|]; simpl; rewrite !lookup_insert_ne by set_solver; done.
Qed.

(** What a build that returns has done to the store. *)
Lemma build_snapshot h qid pv h' :
  build h = (Ok (qid, pv), h') →
  ∃ lr h1 reg lu dus language_list bot_types h2 h3 p pp,
    register_or_fetch w request user_profile realm narrow h
      = (Ok (VRef lr), h1) ∧
    h1 !! lr = Some reg ∧ reg !! "user_settings" = Some (VRef lu) ∧
    h1 !! lu = Some dus ∧
    language_list_dicts w h1 = (Ok language_list, h2) ∧
    get_bot_types w user_profile h2 = (Ok bot_types, h3) ∧
    pv = VRef p ∧ h1 !! p = None ∧ h' !! p = Some pp ∧
    reg !! "queue_id" = Some qid ∧
    (∀ k, k ∉ rewritten_after_merge narrow_stream narrow_topic →
          pp !! k = (reg ∪ literal language_list bot_types) !! k) ∧
    h' !! lu = Some (match narrow_stream with
                     | Some _ =>
                         <["enable_desktop_notifications" := VBool false]> dus
                     | None => dus
                     end) ∧
    (∀ l x, h1 !! l = Some x → l ≠ lu → h' !! l = Some x).
Proof.
  intros (lr & h1 & reg & lu & dus & language_list & bot_types & h2 & h3
          & h6 & d6 & lang & Ereg & Hlr & Hus & Hlu & Ell & Ebt & Hsub & ->
          & Hnarrow & Hp6 & -> & regf & Hlrf & Hq)%build_Ok.
  set (p := fresh_loc h3) in *. set (t := fresh_loc h6) in *.
  set (c := reg ∪ literal language_list bot_types) in *.
  assert (h3 !! p = None) as Hp3 by apply fresh_loc_None.
  assert (∀ l x, h1 !! l = Some x → h3 !! l = Some x ∧ l ≠ p) as Hold.
  { intros l x Hl. assert (h3 !! l = Some x) by by eapply lookup_weaken.
    split; [done|]. apply fresh_loc_ne. by eexists. }
  destruct (Hold _ _ Hlr) as [Hlr3 Hlrp]. destruct (Hold _ _ Hlu) as [Hlu3 Hlup].
  assert (h1 !! p = None) as Hp1.
  { destruct (h1 !! p) as [x|] eqn:E; [|done]. by destruct (Hold _ _ E). }
  assert (h6 !! lu = Some (match narrow_stream with
                           | Some _ =>
                               <["enable_desktop_notifications" := VBool false]>
                                 dus
                           | None => dus
                           end) ∧
          (∀ k, k ∉ rewritten_after_merge narrow_stream narrow_topic →
                d6 !! k = c !! k) ∧
          (∀ l x, h1 !! l = Some x → l ≠ lu → h6 !! l = Some x))
    as (Hlu6 & Hd6 & Hframe6).
  { destruct narrow_stream as [s|].
    - apply narrow_override_Ok in Hnarrow
        as (p' & d & n & terms & hc & lu' & dus' & [= <-] & Hp5 & _ & Hfr & _
            & Hus' & Hlu' & ->).
      rewrite lookup_insert_eq in Hp5. injection Hp5 as <-.
      rewrite narrow_fields_lookup_ne in Hus'
        by (unfold narrow_keys; destruct narrow_topic; set_solver).
      assert (c !! "user_settings" = Some (VRef lu)) as Hcus
        by by apply lookup_union_Some_l.
      assert (lu' = lu) as -> by congruence.
      rewrite lookup_insert_ne in Hlu' by done.
      assert (hc !! lu = Some dus) as Hclu.
      { apply Hfr; [|done]. by rewrite lookup_insert_ne. }
      assert (dus' = dus) as -> by congruence.
      rewrite lookup_insert_ne, lookup_insert_eq in Hp6 by done.
      injection Hp6 as <-.
      split; [by rewrite lookup_insert_eq|]. split.
      + intros k Hk. apply narrow_fields_lookup_ne.
        unfold rewritten_after_merge in Hk. set_solver.
      + intros l x Hl Hne. destruct (Hold _ _ Hl) as [Hl3 Hlp].
        rewrite !lookup_insert_ne by done.
        apply Hfr; [|done]. by rewrite lookup_insert_ne.
    - subst h6. rewrite lookup_insert_eq in Hp6. injection Hp6 as <-.
      split; [by rewrite lookup_insert_ne|]. split; [done|].
      intros l x Hl _. destruct (Hold _ _ Hl) as [Hl3 Hlp].
      by rewrite lookup_insert_ne. }
  assert (∀ l, is_Some (h6 !! l) → t ≠ l) as Ht.
  { intros l Hl Heq. by apply (fresh_loc_ne h6 l). }
  assert (∃ reg6, h6 !! lr = Some reg6 ∧
                  reg6 !! "queue_id" = reg !! "queue_id") as (reg6 & Hlr6 & Hq6).
  { destruct (decide (lr = lu)) as [->|Hne].
    - eexists. split; [done|]. assert (dus = reg) as -> by congruence.
      destruct narrow_stream; [by rewrite lookup_insert_ne | done].
    - exists reg. split; [by apply Hframe6 | done]. }
  rewrite lookup_insert_ne in Hlrf by done.
  rewrite lookup_insert_ne in Hlrf by (apply Ht; by eexists).
  assert (regf = reg6) as -> by congruence.
  exists lr, h1, reg, lu, dus, language_list, bot_types, h2, h3, p.
  eexists. do 8 (split; [done|]).
  split; [by rewrite lookup_insert_eq|].
  split; [congruence|]. split; [|split].
  - intros k Hk. rewrite lookup_insert_ne.
    + by apply Hd6.
    + unfold rewritten_after_merge in Hk. set_solver.
  - rewrite lookup_insert_ne by done.
    rewrite lookup_insert_ne by (apply Ht; by eexists). done.
  - intros l x Hl Hne. destruct (Hold _ _ Hl) as [_ Hlp].
    rewrite lookup_insert_ne by done.
    rewrite lookup_insert_ne; [by apply Hframe6|].
    apply Ht. rewrite (Hframe6 _ _ Hl Hne). by eexists.
Qed.

End Assembler.

Lemma keys_rewritten_later_covers narrow_stream narrow_topic k :
  k ∉ keys_rewritten_later → k ∉ rewritten_after_merge narrow_stream narrow_topic.
Proof.
  unfold keys_rewritten_later, rewritten_after_merge, narrow_keys.
  destruct narrow_stream, narrow_topic; set_solver.
Qed.

Lemma getitem_run p d k x h :
  h !! p = Some d → d !! k = Some x → getitem (VRef p) k h = (Ok x, h).
Proof. intros Hp Hk. unfold getitem. by rewrite Hp, Hk. Qed.

(** C2: whenever a build with a narrow stream returns, reading
    [page_params["user_settings"]["enable_desktop_notifications"]] in the
    final store gives [False], whatever the registration had put there. *)
Theorem narrow_build_disables_desktop_notifications (w : World)
    (request : HttpRequest) (user_profile : option UserProfile)
    (realm : Realm) (insecure_desktop_app : bool)
    (narrow : list (list string)) (narrow_stream : Stream)
    (narrow_topic : option string)
    (first_in_realm prompt_for_invites needs_tutorial : bool)
    (h : heap) (queue_id page_params : value) (h' : heap) :
  build_page_params_for_home_page_load w request user_profile realm
    insecure_desktop_app narrow (Some narrow_stream) narrow_topic
    first_in_realm prompt_for_invites needs_tutorial h
    = (Ok (queue_id, page_params), h') →
  (user_settings <- getitem page_params "user_settings" ;;
   getitem user_settings "enable_desktop_notifications") h'
    = (Ok (VBool false), h').
Proof.
  intros (lr & h1 & reg & lu & dus & ll & bt & h2 & h3 & p & pp & _ & _ & Hus
          & _ & _ & _ & -> & _ & Hp & _ & Hpp & Hlu & _)%build_snapshot.
  unfold bind. erewrite getitem_run; [|done|].
  - erewrite getitem_run; [done..|]. by rewrite lookup_insert_eq.
  - rewrite Hpp by (by apply keys_rewritten_later_covers; set_solver).
    by apply lookup_union_Some_l.
Qed.

(** C3: for a spectator and no narrow stream, provided the fetched state
    honours [spectator_state_contract], a build that returns gives a null
    queue id and a snapshot with [is_spectator] and [no_event_queue] true
    and an empty [bot_types]. *)
Theorem spectator_build_snapshot (w : World) (request : HttpRequest)
    (realm : Realm) (insecure_desktop_app : bool)
    (narrow : list (list string)) (narrow_topic : option string)
    (first_in_realm prompt_for_invites needs_tutorial : bool)
    (h : heap) (queue_id page_params : value) (h' : heap) :
  spectator_state_contract w →
  build_page_params_for_home_page_load w request None realm
    insecure_desktop_app narrow None narrow_topic
    first_in_realm prompt_for_invites needs_tutorial h
    = (Ok (queue_id, page_params), h') →
  queue_id = VNone ∧
  getitem page_params "is_spectator" h' = (Ok (VBool true), h') ∧
  getitem page_params "no_event_queue" h' = (Ok (VBool true), h') ∧
  getitem page_params "bot_types" h' = (Ok (VList []), h').
Proof.
  intros Hcontract
    (lr & h1 & reg & lu & dus & ll & bt & h2 & h3 & p & pp & Ereg & Hlr & _
     & _ & _ & Ebt & -> & _ & Hp & Hq & Hpp & _ & _)%build_snapshot.
  unfold register_or_fetch in Ereg.
  apply bind_Ok in Ereg as (r & ha & Ef & Ereg).
  apply bind_Ok in Ereg as (u & hb & Epp & Ereg).
  apply ret_Ok in Ereg as [<- ->].
  destruct (Hcontract _ _ _ _ _ _ _ Ef Epp)
    as (l & state & [= <-] & Hl & Hqid & Hsp & Hnq & Hbt).
  assert (state = reg) as -> by congruence. simpl in Hqid.
  injection Ebt as <- _.
  split; [congruence|].
  repeat split; (eapply getitem_run; [done|]);
    (rewrite Hpp by (by apply keys_rewritten_later_covers; set_solver));
    by rewrite lookup_union_r.
Qed.

(** C9: in a build that returns, every key of the registration result maps
    to the registration's value in the snapshot, and every other key to the
    computed field, except for the keys the narrow override and the
    translation step assign later; the objects of the registration result
    are untouched but for [enable_desktop_notifications] in the
    [user_settings] dict. *)
Theorem registration_keys_override_computed_fields (w : World)
    (request : HttpRequest) (user_profile : option UserProfile)
    (realm : Realm) (insecure_desktop_app : bool)
    (narrow : list (list string)) (narrow_stream : option Stream)
    (narrow_topic : option string)
    (first_in_realm prompt_for_invites needs_tutorial : bool)
    (h : heap) (queue_id page_params : value) (h' : heap) :
  build_page_params_for_home_page_load w request user_profile realm
    insecure_desktop_app narrow narrow_stream narrow_topic
    first_in_realm prompt_for_invites needs_tutorial h
    = (Ok (queue_id, page_params), h') →
  ∃ lr h1 reg language_list bot_types h2 h3 p pp,
    register_or_fetch w request user_profile realm narrow h
      = (Ok (VRef lr), h1) ∧
    h1 !! lr = Some reg ∧
    language_list_dicts w h1 = (Ok language_list, h2) ∧
    get_bot_types w user_profile h2 = (Ok bot_types, h3) ∧
    page_params = VRef p ∧ h' !! p = Some pp ∧
    (∀ k v, reg !! k = Some v → k ∉ keys_rewritten_later →
            pp !! k = Some v) ∧
    (∀ k, reg !! k = None → k ∉ keys_rewritten_later →
          pp !! k = page_params_literal w user_profile realm
                      insecure_desktop_app first_in_realm prompt_for_invites
                      needs_tutorial language_list bot_types !! k) ∧
    (∀ l x, h1 !! l = Some x →
       ∃ x', h' !! l = Some x' ∧
         ∀ k, (k = "enable_desktop_notifications" →
               reg !! "user_settings" ≠ Some (VRef l)) →
              x' !! k = x !! k).
Proof.
  intros (lr & h1 & reg & lu & dus & ll & bt & h2 & h3 & p & pp & Ereg & Hlr
          & Hus & Hlu0 & Ell & Ebt & -> & _ & Hp & _ & Hpp & Hlu
          & Hframe)%build_snapshot.
  exists lr, h1, reg, ll, bt, h2, h3, p, pp.
  do 6 (split; [done|]). split; [|split].
  - intros k v Hk Hnot.
    rewrite Hpp by by apply keys_rewritten_later_covers.
    by apply lookup_union_Some_l.
  - intros k Hk Hnot.
    rewrite Hpp by by apply keys_rewritten_later_covers.
    by rewrite lookup_union_r.
  - intros l x Hl. destruct (decide (l = lu)) as [->|Hne].
    + eexists. split; [done|]. intros k Hk.
      assert (x = dus) as -> by congruence.
      destruct narrow_stream; [|done].
      rewrite lookup_insert_ne; [done|]. intros <-. by apply Hk.
    + exists x. split; [by apply Hframe | done].
Qed.

(** ** Applying the narrow override again *)

Lemma bind_run {A B} (m : M A) (k : A → M B) h a h1 :
  m h = (Ok a, h1) → bind m k h = k a h1.
Proof. intros E. unfold bind. by rewrite E. Qed.

Lemma bind_run_Raise {A B} (m : M A) (k : A → M B) h e h1 :
  m h = (Raise e, h1) → bind m k h = (Raise e, h1).
Proof. intros E. unfold bind. by rewrite E. Qed.

Lemma force_desktop_notifications_off_run p d lu h :
  h !! p = Some d → d !! "user_settings" = Some (VRef lu) →
  is_Some (h !! lu) →
  (force_desktop_notifications_off (VRef p) h).1 = Ok tt.
Proof.
  intros Hp Hus [dus Hlu]. unfold force_desktop_notifications_off.
  erewrite bind_run by by eapply getitem_run.
  erewrite bind_run.
  2:{ unfold isinstance_dict. rewrite bool_decide_true by by eexists. done. }
  erewrite bind_run by done.
  erewrite bind_run by by eapply getitem_run.
  by erewrite setitem_run.
Qed.

(** One application, whatever its outcome: where it leaves the dict of
    [page_params], and when it is sure to return. *)
Lemma narrow_override_effect w p d narrow s topic h :
  h !! p = Some d →
  ∃ n d1,
    narrow_max_message_id w s = Ok n ∧
    (narrow_override w (VRef p) narrow s topic h).2 !! p = Some d1 ∧
    d1 !! "max_message_id"
      = (if narrow_well_formed narrow then Some (VInt n)
         else d !! "max_message_id") ∧
    ((narrow_override w (VRef p) narrow s topic h).1 = Ok tt →
     narrow_well_formed narrow = true) ∧
    (narrow_well_formed narrow = true →
     ∀ lu, d !! "user_settings" = Some (VRef lu) → is_Some (h !! lu) →
           (narrow_override w (VRef p) narrow s topic h).1 = Ok tt).
Proof.
  intros Hp. destruct (narrow_max_message_id_Ok w s) as [n En].
  exists n. unfold narrow_override.
  erewrite bind_run by (unfold lift; by rewrite En).
  erewrite bind_run by by apply setitem_run.
  set (d2 := match topic with
             | Some t => <["narrow_topic" := VStr t]>
             | None => id
             end (<["narrow_stream" := VStr (stream_name s)]> d)).
  assert (d2 !! "max_message_id" = d !! "max_message_id") as Hmm2
    by (unfold d2; destruct topic; simpl; by rewrite !lookup_insert_ne).
  assert (d2 !! "user_settings" = d !! "user_settings") as Hus2
    by (unfold d2; destruct topic; simpl; by rewrite !lookup_insert_ne).
  erewrite (bind_run _ _ _ tt (<[p := d2]> h)).
  2:{ unfold d2. destruct topic as [t|]; cbv beta iota.
      - erewrite setitem_run by by rewrite lookup_insert_eq.
        by rewrite insert_insert_eq.
      - done. }
  pose proof (encode_narrow_outcome narrow (<[p := d2]> h)) as Hout.
  destruct (encode_narrow narrow (<[p := d2]> h)) as [[terms|e] hc] eqn:E;
    simpl in Hout.
  2:{ destruct Hout as [-> Hwf]. erewrite bind_run_Raise by done. simpl.
      exists d2. rewrite Hwf. split; [done|].
      split; [|split; [done|split; done]].
      eapply allocates_only_lookup;
        [apply allocates_only_encode_narrow | done |].
      by rewrite lookup_insert_eq. }
  rewrite Hout. erewrite bind_run by done.
  assert (hc !! p = Some d2) as Hcp.
  { eapply allocates_only_lookup;
      [apply allocates_only_encode_narrow | done |].
    by rewrite lookup_insert_eq. }
  erewrite bind_run by by apply setitem_run.
  erewrite bind_run by (apply setitem_run; by rewrite lookup_insert_eq).
  rewrite insert_insert_eq.
  set (d4 := <["max_message_id" := VInt n]>
               (<["narrow" := VList terms]> d2)).
  set (hd := <[p := d4]> hc).
  assert (hd !! p = Some d4) as Hdp by (unfold hd; by rewrite lookup_insert_eq).
  destruct (force_desktop_notifications_off_frame p d4 hd Hdp)
    as (d' & Hd' & Hsame).
  exists d'. split; [done|]. split; [done|]. split; [|split; [done|]].
  - rewrite Hsame by done. unfold d4. by rewrite lookup_insert_eq.
  - intros _ lu Hus Hlu.
    apply (force_desktop_notifications_off_run p d4 lu); [done| |].
    + unfold d4. rewrite !lookup_insert_ne by done. congruence.
    + unfold hd. destruct (decide (p = lu)) as [->|Hne].
      * rewrite lookup_insert_eq. by eexists.
      * rewrite lookup_insert_ne by done. destruct Hlu as [x Hx].
        exists x. eapply allocates_only_lookup;
          [apply allocates_only_encode_narrow | done |].
        by rewrite lookup_insert_ne.
Qed.

Lemma narrow_override_not_dict w pv narrow s topic h :
  (∀ p, pv = VRef p → h !! p = None) →
  (narrow_override w pv narrow s topic h).2 = h.
Proof.
  intros Hpv. destruct (narrow_max_message_id_Ok w s) as [n En].
  unfold narrow_override.
  erewrite bind_run by (unfold lift; by rewrite En).
  erewrite bind_run_Raise; [done|].
  unfold setitem. destruct pv as [| | | | | |p]; try done.
  by rewrite (Hpv p eq_refl).
Qed.

(** C8: applying the narrow override a second time, with the same stream
    and the same messages, leaves [page_params["max_message_id"]] as the
    first application left it, in every store and whatever the outcome of
    the first; when the first application returns, so does the second, and
    the field holds the latest message id of the stream. *)
Theorem narrow_override_idempotent_max_message_id (w : World)
    (page_params : value) (narrow : list (list string)) (s : Stream)
    (narrow_topic : option string) (h : heap) :
  let once := narrow_override w page_params narrow s narrow_topic h in
  let twice := narrow_override w page_params narrow s narrow_topic once.2 in
  (getitem page_params "max_message_id" twice.2).1
    = (getitem page_params "max_message_id" once.2).1 ∧
  (once.1 = Ok tt →
   twice.1 = Ok tt ∧
   ∃ n, narrow_max_message_id w s = Ok n ∧
        (getitem page_params "max_message_id" once.2).1 = Ok (VInt n) ∧
        (getitem page_params "max_message_id" twice.2).1 = Ok (VInt n)).
Proof.
  intros once twice.
  assert (∀ h0 p d0, h0 !! p = Some d0 →
            (getitem (VRef p) "max_message_id" h0).1
              = match d0 !! "max_message_id" with
                | Some x => Ok x
                | None => Raise (KeyError "max_message_id")
                end) as Hget.
  { intros h0 p d0 Hp0. unfold getitem. rewrite Hp0.
    by destruct (d0 !! "max_message_id"). }
  assert ((∃ p d, page_params = VRef p ∧ h !! p = Some d) ∨
          (∀ p, page_params = VRef p → h !! p = None)) as [Hdict|Hno].
  { destruct page_params as [| | | | | |p]; try by right.
    destruct (h !! p) as [d|] eqn:Hp; [left; by exists p, d|].
    right. by intros ? [= <-]. }
  - destruct Hdict as (p & d & -> & Hp).
    destruct (narrow_override_effect w p d narrow s narrow_topic h Hp)
      as (n & d1 & En & Hp1 & Hm1 & Hwf1 & _). fold once in Hp1, Hwf1.
    destruct (narrow_override_effect w p d1 narrow s narrow_topic once.2 Hp1)
      as (n' & d2 & En' & Hp2 & Hm2 & _ & Hrun2). fold twice in Hp2, Hrun2.
    assert (n' = n) as -> by congruence.
    rewrite (Hget _ _ _ Hp1), (Hget _ _ _ Hp2), Hm2, Hm1.
    split; [by destruct (narrow_well_formed narrow)|].
    intros Hok. specialize (Hwf1 Hok). rewrite Hwf1. split; [|by exists n].
    unfold once in Hok, Hp1, Hrun2.
    destruct (narrow_override w (VRef p) narrow s narrow_topic h)
      as [[[]|e] h1] eqn:E; [|done].
    apply narrow_override_Ok in E
      as (p' & d' & n' & terms & hc & lu & dus & [= <-] & Hp' & _ & _ & _
          & Hus & Hlu & ->).
    simpl in Hp1, Hrun2. apply (Hrun2 Hwf1 lu).
    + destruct (decide (lu = p)) as [->|Hne].
      * rewrite lookup_insert_eq in Hlu, Hp1.
        injection Hlu as <-. injection Hp1 as <-.
        by rewrite lookup_insert_ne.
      * rewrite lookup_insert_ne, lookup_insert_eq in Hp1 by done.
        by injection Hp1 as <-.
    + rewrite lookup_insert_eq. by eexists.
  - assert (once.2 = h) as Eonce by by apply narrow_override_not_dict.
    assert (twice.2 = h) as Etwice.
    { unfold twice. rewrite Eonce. by apply narrow_override_not_dict. }
    rewrite Eonce, Etwice. split; [done|].
    intros Hok. unfold once in Hok.
    destruct (narrow_override w page_params narrow s narrow_topic h)
      as [[[]|e] h1] eqn:E; [|done].
    apply narrow_override_Ok in E
      as (p' & d' & _ & _ & _ & _ & _ & -> & Hp' & _).
    by rewrite (Hno p' eq_refl) in Hp'.
Qed.

Example python_timegm_epoch :
  python_timegm {| tm_year := 1970; tm_mon := 1; tm_mday := 1;
                   tm_hour := 0; tm_min := 0; tm_sec := 0 |} = 0.
Proof. reflexivity. Qed.

Example ord2ymd_round_trips :
  ord2ymd (ymd2ord 2020 2 29) = (2020, 2, 29) ∧
  ord2ymd (ymd2ord 2021 12 31) = (2021, 12, 31) ∧
  ord2ymd (ymd2ord 2000 3 1) = (2000, 3, 1) ∧
  ord2ymd (ymd2ord 1900 2 28 + 1) = (1900, 3, 1) ∧
  ymd2ord 1970 1 1 = 719163.
Proof. repeat split; reflexivity. Qed.

Example utc_fields_offset :
  utc_fields {| dt_year := 2021; dt_month := 1; dt_day := 1;
                dt_hour := 0; dt_minute := 30; dt_second := 0;
                dt_microsecond := 0; dt_utcoffset := Some 3600 |}
    = {| tm_year := 2020; tm_mon := 12; tm_mday := 31;
         tm_hour := 23; tm_min := 30; tm_sec := 0 |} ∧
  utc_fields {| dt_year := 2020; dt_month := 2; dt_day := 28;
                dt_hour := 22; dt_minute := 0; dt_second := 5;
                dt_microsecond := 0; dt_utcoffset := Some (-19800) |}
    = {| tm_year := 2020; tm_mon := 2; tm_mday := 29;
         tm_hour := 3; tm_min := 30; tm_sec := 5 |}.
Proof. split; reflexivity. Qed.

Example python_timegm_2021 :
  python_timegm (utc_fields demo_last_visit) = 1635953100.
Proof. reflexivity. Qed.

Example demo_narrow_build_returns :
  demo_narrow_build.1 = Ok (VStr "1636000000:0", VRef 8%positive).
Proof. vm_compute. reflexivity. Qed.

Lemma demo_narrow_build_eq :
  demo_narrow_build
    = (Ok (VStr "1636000000:0", VRef 8%positive), demo_narrow_build.2).
Proof.
  rewrite (surjective_pairing demo_narrow_build) at 1.
  by rewrite demo_narrow_build_returns.
Qed.

Example demo_narrow_build_max_message_id :
  (getitem (VRef 8%positive) "max_message_id" demo_narrow_build.2).1
    = Ok (VInt 9).
Proof. vm_compute. reflexivity. Qed.

Example demo_spectator_build_returns :
  demo_spectator_build.1 = Ok (VNone, VRef 6%positive).
Proof. vm_compute. reflexivity. Qed.

Lemma demo_spectator_build_eq :
  demo_spectator_build = (Ok (VNone, VRef 6%positive), demo_spectator_build.2).
Proof.
  rewrite (surjective_pairing demo_spectator_build) at 1.
  by rewrite demo_spectator_build_returns.
Qed.

Example demo_registration_returns :
  demo_registration.1 = Ok (VRef 3%positive) ∧
  demo_registration.2 !! 3%positive ≫= (.!! "realm_name")
    = Some (VStr "Demo") ∧
  demo_registration.2 !! 3%positive ≫= (.!! "is_spectator") = None.
Proof. vm_compute. done. Qed.

(** ** The properties at the concrete world *)

Lemma demo_world_spectator_state_contract : spectator_state_contract demo_world.
Proof.
  intros user_profile args h r h1 u h2 Ef Epp. simpl in Ef, Epp.
  apply ret_Ok in Epp as [_ ->]. unfold demo_state in Ef.
  apply bind_Ok in Ef as (us & ha & Eus & Ef). apply alloc_Ok in Eus as [-> ->].
  apply bind_Ok in Ef as (st & hb & Est & Ef). apply alloc_Ok in Est as [-> ->].
  apply ret_Ok in Ef as [-> ->].
  eexists _, _. split; [done|]. split; [by rewrite lookup_insert_eq|].
  by destruct (fa_queue_id args).
Qed.

Lemma get_billing_info_show_billing_witness :
  show_billing (get_billing_info demo_world (Some demo_owner)) = true ∧
  billing_visible demo_world (Some demo_owner) ∧
  show_billing (get_billing_info demo_world (Some demo_guest)) = false.
Proof.
  destruct (get_billing_info_show_billing demo_world (Some demo_owner))
    as [[Hshown _] _].
  destruct (get_billing_info_show_billing demo_world (Some demo_guest))
    as [_ [_ Hhidden]].
  split; [reflexivity|]. split; [by apply Hshown|].
  apply Hhidden. intros (_ & u & [= <-] & Hacc & _). discriminate Hacc.
Defined.

Lemma get_billing_info_show_plans_witness :
  show_plans (get_billing_info demo_world (Some demo_guest)) = false ∧
  show_plans (get_billing_info demo_world (Some demo_owner)) = true.
Proof.
  split.
  - destruct (get_billing_info_show_plans demo_world (Some demo_guest))
      as [_ Hguest]. by apply (Hguest demo_guest).
  - destruct (get_billing_info_show_plans demo_world (Some demo_owner))
      as [[_ Hshown] _]. apply Hshown. split; [reflexivity|].
    by exists demo_owner.
Defined.

Lemma get_billing_info_ignores_billing_store_witness :
  (get_billing_info_logged (with_billing demo_world demo_billing)
     (Some demo_guest)).2 = [] ∧
  get_billing_info (with_billing demo_world demo_billing) (Some demo_guest)
    = get_billing_info (with_billing demo_world empty_billing)
        (Some demo_guest) ∧
  show_billing
    (get_billing_info (with_billing demo_world demo_billing)
       (Some demo_guest)) = false.
Proof.
  apply (get_billing_info_ignores_billing_store demo_world demo_billing
           empty_billing (Some demo_guest)).
  right. right. exists demo_guest. split; reflexivity.
Defined.


Example narrow_max_message_id_demo :
  narrow_max_message_id demo_world quiet_stream = Ok (-1) ∧
  narrow_max_message_id demo_world demo_stream = Ok 9.
Proof. split; reflexivity. Qed.

Lemma narrow_build_disables_desktop_notifications_witness :
  ∃ queue_id page_params,
    demo_narrow_build = (Ok (queue_id, page_params), demo_narrow_build.2) ∧
    (user_settings <- getitem page_params "user_settings" ;;
     getitem user_settings "enable_desktop_notifications") demo_narrow_build.2
      = (Ok (VBool false), demo_narrow_build.2).
Proof.
  exists (VStr "1636000000:0"), (VRef 8%positive).
  split; [exact demo_narrow_build_eq|].
  exact (narrow_build_disables_desktop_notifications demo_world
           demo_request (Some demo_owner) demo_realm false demo_narrow
           demo_stream None false false false ∅ _ _ _ demo_narrow_build_eq).
Defined.

Lemma spectator_build_snapshot_witness :
  ∃ queue_id page_params,
    demo_spectator_build
      = (Ok (queue_id, page_params), demo_spectator_build.2) ∧
    queue_id = VNone ∧
    getitem page_params "is_spectator" demo_spectator_build.2
      = (Ok (VBool true), demo_spectator_build.2) ∧
    getitem page_params "no_event_queue" demo_spectator_build.2
      = (Ok (VBool true), demo_spectator_build.2) ∧
    getitem page_params "bot_types" demo_spectator_build.2
      = (Ok (VList []), demo_spectator_build.2).
Proof.
  exists VNone, (VRef 6%positive).
  split; [exact demo_spectator_build_eq|].
  exact (spectator_build_snapshot demo_world demo_request demo_realm false
           [] None false false false ∅ _ _ _
           demo_world_spectator_state_contract demo_spectator_build_eq).
Defined.

Lemma registration_keys_override_computed_fields_witness :
  ∃ pp,
    demo_narrow_build.2 !! 8%positive = Some pp ∧
    pp !! "realm_name" = Some (VStr "Demo") ∧
    pp !! "is_spectator" = Some (VBool false).
Proof.
  destruct (registration_keys_override_computed_fields demo_world
              demo_request (Some demo_owner) demo_realm false demo_narrow
              (Some demo_stream) None false false false ∅ _ _ _
              demo_narrow_build_eq)
    as (lr & h1 & reg & ll & bt & h2 & h3 & p & pp & Ereg & Hlr & _ & _
        & Heq & Hp & Hreg & Hcomp & _).
  injection Heq as <-. exists pp. split; [exact Hp|].
  destruct demo_registration_returns as (E1 & Ename & Espectator).
  fold demo_registration in Ereg. rewrite Ereg in E1, Ename, Espectator.
  injection E1 as ->. cbn [snd] in Ename, Espectator.
  rewrite Hlr in Ename, Espectator.
  split.
  - apply Hreg; [exact Ename|].
    apply (bool_decide_unpack _). vm_compute. exact I.
  - rewrite Hcomp; [|exact Espectator|].
    + vm_compute. reflexivity.
    + apply (bool_decide_unpack _). vm_compute. exact I.
Defined.

Lemma narrow_override_idempotent_max_message_id_witness :
  let page_params := VRef 8%positive in
  let once :=
    narrow_override demo_world page_params demo_narrow demo_stream None
      demo_narrow_build.2 in
  let twice :=
    narrow_override demo_world page_params demo_narrow demo_stream None
      once.2 in
  (getitem page_params "max_message_id" twice.2).1 = Ok (VInt 9) ∧
  (getitem page_params "max_message_id" twice.2).1
    = (getitem page_params "max_message_id" once.2).1.
Proof.
  intros page_params once twice.
  destruct (narrow_override_idempotent_max_message_id demo_world page_params
              demo_narrow demo_stream None demo_narrow_build.2)
    as [Hsame Hok].
  split; [|exact Hsame].
  destruct Hok as (_ & n & Hn & _ & Htwice); [vm_compute; reflexivity|].
  vm_compute in Hn. injection Hn as <-. exact Htwice.
Defined.

(** * Further properties *)

(** ** The narrow override, step by step *)

Lemma narrow_override_unfold w p d narrow s topic n h :
  h !! p = Some d → narrow_max_message_id w s = Ok n →
  narrow_override w (VRef p) narrow s topic h
    = match encode_narrow narrow (<[p := stream_fields s topic d]> h) with
      | (Ok terms, hc) =>
          force_desktop_notifications_off (VRef p)
            (<[p := narrow_fields s topic terms n d]> hc)
      | (Raise e, hc) => (Raise e, hc)
      end.
Proof.
  intros Hp En. unfold narrow_override.
  erewrite bind_run by (unfold lift; by rewrite En).
  erewrite bind_run by by apply setitem_run.
  erewrite (bind_run _ _ _ tt (<[p := stream_fields s topic d]> h)).
  2:{ unfold stream_fields. destruct topic as [t|]; cbv beta iota.
      - erewrite setitem_run by by rewrite lookup_insert_eq.
        by rewrite insert_insert_eq.
      - done. }
  destruct (encode_narrow narrow (<[p := stream_fields s topic d]> h))
    as [[terms|e] hc] eqn:E.
  2:{ by erewrite bind_run_Raise. }
  erewrite bind_run by done.
  assert (hc !! p = Some (stream_fields s topic d)) as Hcp.
  { eapply allocates_only_lookup;
      [apply allocates_only_encode_narrow | done |].
    by rewrite lookup_insert_eq. }
  erewrite bind_run by by apply setitem_run.
  erewrite bind_run by (apply setitem_run; by rewrite lookup_insert_eq).
  by rewrite insert_insert_eq.
Qed.

Lemma force_desktop_notifications_off_unfold p d h :
  h !! p = Some d →
  force_desktop_notifications_off (VRef p) h
    = match d !! "user_settings" with
      | None => (Raise (KeyError "user_settings"), h)
      | Some (VRef lu) =>
          match h !! lu with
          | Some dus =>
              (Ok tt,
               <[lu := <["enable_desktop_notifications" := VBool false]> dus]>
                 h)
          | None => (Raise AssertionError, h)
          end
      | Some _ => (Raise AssertionError, h)
      end.
Proof.
  intros Hp. unfold force_desktop_notifications_off.
  unfold bind at 1. unfold getitem at 1. rewrite Hp.
  destruct (d !! "user_settings") as [us|] eqn:Hus; [|done].
  unfold bind at 1. unfold isinstance_dict.
  destruct us as [| | | | | |lu]; try done.
  destruct (h !! lu) as [dus|] eqn:Hlu.
  2:{ by rewrite bool_decide_false by (by intros [??]). }
  rewrite bool_decide_true by by eexists.
  unfold bind at 1. unfold ret at 1.
  erewrite bind_run by by eapply getitem_run.
  by erewrite setitem_run.
Qed.

Lemma stream_fields_lookup s topic d k :
  k ≠ "narrow_stream" → k ≠ "narrow_topic" →
  stream_fields s topic d !! k = d !! k.
Proof.
  intros H1 H2. unfold stream_fields.
  destruct topic; simpl; by rewrite !lookup_insert_ne.
Qed.

(** ** The dicts the module builds *)

Lemma index_Ok {A} (xs : list A) i (h : heap) x h' :
  index xs i h = (Ok x, h') ↔ xs !! i = Some x ∧ h' = h.
Proof.
  unfold index. destruct (xs !! i) as [y|].
  - split; [by intros [= <- <-] | by intros [[= <-] ->]].
  - split; [done | by intros [? _]].
Qed.

Lemma encode_narrow_Ok narrow : ∀ h terms h',
  encode_narrow narrow h = (Ok terms, h') →
  Forall2 (encodes_term h h') narrow terms ∧ NoDup terms.
Proof.
  induction narrow as [|term narrow IH]; intros h terms h' E.
  - apply ret_Ok in E as [-> ->]. split; constructor.
  - unfold encode_narrow in E. cbn [comprehension] in E.
    apply bind_Ok in E as (y & h1 & Ey & E).
    apply bind_Ok in E as (ys & h2 & Eys & E).
    apply ret_Ok in E as [-> ->].
    apply bind_Ok in Ey as (operator & ha & Eop & Ey).
    apply index_Ok in Eop as [Hop ->].
    apply bind_Ok in Ey as (operand & ha & Eopd & Ey).
    apply index_Ok in Eopd as [Hopd ->].
    apply bind_Ok in Ey as (l & ha & El & Ey).
    apply alloc_Ok in El as [-> ->]. apply ret_Ok in Ey as [-> ->].
    pose proof (allocates_only_encode_narrow narrow _ _ _ Eys) as Hsub.
    destruct (IH _ _ _ Eys) as [Hall Hnodup].
    assert (Forall2 (encodes_term h h2) narrow ys) as Hall'.
    { eapply Forall2_impl; [exact Hall|].
      intros t v (l & o1 & o2 & -> & Hl & ? & ? & ?).
      exists l, o1, o2. repeat split; try done.
      apply lookup_insert_None in Hl as [Hl _]. done. }
    split.
    + constructor; [|done].
      exists (fresh_loc h), operator, operand.
      repeat split; try done; [apply fresh_loc_None|].
      eapply lookup_weaken; [|done]. by rewrite lookup_insert_eq.
    + constructor; [|done].
      intros Hin. apply list_elem_of_lookup in Hin as [i Hi].
      destruct (Forall2_lookup_r _ _ _ _ _ Hall Hi)
        as (t & _ & l & _ & _ & [= <-] & Hl & _).
      by rewrite lookup_insert_eq in Hl.
Qed.

(** X1: line 235 never fails on terms with an operator and an operand: it
    returns one reference per term, in order, each to a dict of its own
    that did not exist before and holds the term's first two elements;
    nothing that existed is changed.  A term with fewer than two elements
    raises [IndexError]. *)
Theorem encode_narrow_spec (narrow : list (list string)) (h : heap) :
  (narrow_well_formed narrow = true →
   ∃ terms h',
     encode_narrow narrow h = (Ok terms, h') ∧ h ⊆ h' ∧
     Forall2 (encodes_term h h') narrow terms ∧ NoDup terms) ∧
  (narrow_well_formed narrow = false →
   (encode_narrow narrow h).1 = Raise IndexError).
Proof.
  pose proof (encode_narrow_outcome narrow h) as Hout.
  destruct (encode_narrow narrow h) as [[terms|e] h'] eqn:E; simpl in Hout.
  - split; [|congruence]. intros _. exists terms, h'.
    split; [done|]. split; [by eapply allocates_only_encode_narrow|].
    by apply encode_narrow_Ok.
  - destruct Hout as [-> Hwf]. split; [congruence | done].
Qed.

Lemma get_bot_types_loop u items : ∀ acc h,
  ∃ vs h',
    for_acc items acc (λ bot_types item,
      let '(type_id, name) := item in
      d <- alloc (list_to_map
             [("type_id", VInt type_id);
              ("name", VStr name);
              ("allowed",
               VBool (bool_decide (type_id ∈ allowed_bot_types u)))]) ;;
      ret (bot_types ++ [VRef d])) h
      = (Ok (acc ++ vs), h') ∧
    h ⊆ h' ∧ Forall2 (describes_bot_type u h h') items vs.
Proof.
  induction items as [|[type_id name] items IH]; intros acc h.
  - exists [], h. rewrite app_nil_r. split; [done|]. split; [done|constructor].
  - cbn [for_acc]. unfold bind at 1. unfold bind at 1. unfold alloc at 1.
    unfold ret at 1.
    destruct (IH (acc ++ [VRef (fresh_loc h)])
                (<[fresh_loc h := bot_type_dict u type_id name]> h))
      as (vs & h' & E & Hsub & Hall).
    unfold bot_type_dict in E at 1. rewrite E.
    exists (VRef (fresh_loc h) :: vs), h'.
    split; [by rewrite <- app_assoc|].
    assert (h ⊆ <[fresh_loc h := bot_type_dict u type_id name]> h) as Hsub0
      by apply insert_subseteq, fresh_loc_None.
    split; [by etrans|]. constructor.
    + exists (fresh_loc h). split; [done|]. split; [apply fresh_loc_None|].
      eapply lookup_weaken; [|done]. by rewrite lookup_insert_eq.
    + eapply Forall2_impl; [exact Hall|].
      intros item v (l & -> & Hl & Hl'). exists l.
      split; [done|]. split; [|done].
      apply lookup_insert_None in Hl as [Hl _]. done.
Qed.

Lemma get_bot_types_Ok w user_profile h :
  ∃ vs h', get_bot_types w user_profile h = (Ok vs, h') ∧ h ⊆ h'.
Proof.
  unfold get_bot_types. destruct user_profile as [u|].
  - destruct (get_bot_types_loop u (BOT_TYPES (consts w)) [] h)
      as (vs & h' & E & Hsub & _). by exists vs, h'.
  - by exists [], h.
Qed.

(** X2: [get_bot_types] never raises.  For an identity it returns one
    reference per entry of [BOT_TYPES], in the table's order, each to a new
    dict with the entry's id and name and [allowed] telling whether the id
    is among the identity's allowed bot types; for a spectator the list is
    empty and the store is left as it was. *)
Theorem get_bot_types_spec (w : World) (user_profile : option UserProfile)
    (h : heap) :
  ∃ vs h',
    get_bot_types w user_profile h = (Ok vs, h') ∧ h ⊆ h' ∧
    match user_profile with
    | Some u =>
        Forall2 (describes_bot_type u h h') (BOT_TYPES (consts w)) vs
    | None => vs = [] ∧ h' = h
    end.
Proof.
  unfold get_bot_types. destruct user_profile as [u|].
  - destruct (get_bot_types_loop u (BOT_TYPES (consts w)) [] h)
      as (vs & h' & E & Hsub & Hall). by exists vs, h'.
  - by exists [], h.
Qed.

(** ** What the narrow override writes, and what it leaves *)

Lemma narrow_fields_user_settings s topic terms n d :
  narrow_fields s topic terms n d !! "user_settings" = d !! "user_settings".
Proof.
  unfold narrow_fields. rewrite !lookup_insert_ne by done.
  by apply (stream_fields_lookup s topic d).
Qed.

Lemma narrow_override_Ok_terms w pv narrow s topic h u h' :
  narrow_override w pv narrow s topic h = (Ok u, h') →
  ∃ p d n terms hc lu dus,
    pv = VRef p ∧ h !! p = Some d ∧ narrow_max_message_id w s = Ok n ∧
    encode_narrow narrow (<[p := stream_fields s topic d]> h)
      = (Ok terms, hc) ∧
    d !! "user_settings" = Some (VRef lu) ∧
    <[p := narrow_fields s topic terms n d]> hc !! lu = Some dus ∧
    h' = <[lu := <["enable_desktop_notifications" := VBool false]> dus]>
           (<[p := narrow_fields s topic terms n d]> hc).
Proof.
  intros E.
  destruct (narrow_override_Ok _ _ _ _ _ _ _ _ E)
    as (p & d & n & _ & _ & _ & _ & -> & Hp & En & _).
  rewrite (narrow_override_unfold w p d narrow s topic n h Hp En) in E.
  destruct (encode_narrow narrow (<[p := stream_fields s topic d]> h))
    as [[terms|e] hc] eqn:Eenc; [|done].
  rewrite (force_desktop_notifications_off_unfold p
             (narrow_fields s topic terms n d)) in E
    by by rewrite lookup_insert_eq.
  rewrite narrow_fields_user_settings in E.
  destruct (d !! "user_settings") as [[| | | | | |lu]|] eqn:Hus; try done.
  destruct (<[p := narrow_fields s topic terms n d]> hc !! lu)
    as [dus|] eqn:Hlu; [|done].
  apply (f_equal snd) in E. cbn [snd] in E. subst h'.
  by exists p, d, n, terms, hc, lu, dus.
Qed.

(** X3: when the narrow override returns, the dict of [page_params] holds
    the stream's name, the latest message id of the stream, and the narrow
    terms as operator/operand dicts; [narrow_topic] is set when a topic is
    given and otherwise left as it was; every other key but
    [enable_desktop_notifications] is as before. *)
Theorem narrow_override_writes (w : World) (page_params : value)
    (narrow : list (list string)) (s : Stream) (topic : option string)
    (h : heap) (u : unit) (h' : heap) :
  narrow_override w page_params narrow s topic h = (Ok u, h') →
  ∃ p d d' n terms,
    page_params = VRef p ∧ h !! p = Some d ∧ h' !! p = Some d' ∧
    narrow_max_message_id w s = Ok n ∧
    d' !! "narrow_stream" = Some (VStr (stream_name s)) ∧
    d' !! "narrow_topic"
      = match topic with
        | Some t => Some (VStr t)
        | None => d !! "narrow_topic"
        end ∧
    d' !! "max_message_id" = Some (VInt n) ∧
    d' !! "narrow" = Some (VList terms) ∧
    Forall2 (λ term v,
               ∃ l dl, v = VRef l ∧ h !! l = None ∧ h' !! l = Some dl ∧
                       VStr <$> term !! 0%nat = dl !! "operator" ∧
                       VStr <$> term !! 1%nat = dl !! "operand")
            narrow terms ∧
    (∀ k, k ∉ ["narrow_stream"; "narrow_topic"; "narrow"; "max_message_id";
               "enable_desktop_notifications"] → d' !! k = d !! k).
Proof.
  intros (p & d & n & terms & hc & lu & dus & -> & Hp & En & Eenc & Hus & Hlu
          & ->)%narrow_override_Ok_terms.
  set (nf := narrow_fields s topic terms n d) in *.
  assert (∃ d', <[lu := <["enable_desktop_notifications" := VBool false]> dus]>
                  (<[p := nf]> hc) !! p = Some d' ∧
                ∀ k, k ≠ "enable_desktop_notifications" → d' !! k = nf !! k)
    as (d' & Hd' & Hsame).
  { destruct (decide (lu = p)) as [->|Hne].
    - rewrite lookup_insert_eq in Hlu. injection Hlu as <-.
      eexists. split; [by rewrite lookup_insert_eq|].
      intros k Hk. by rewrite lookup_insert_ne.
    - exists nf. split; [|done].
      by rewrite lookup_insert_ne, lookup_insert_eq. }
  exists p, d, d', n, terms. do 4 (split; [done|]).
  rewrite !Hsame by done. unfold nf, narrow_fields.
  split; [|split; [|split; [|split; [|split]]]].
  - rewrite !lookup_insert_ne by done. unfold stream_fields.
    destruct topic; simpl;
      [by rewrite lookup_insert_ne, lookup_insert_eq
      | by rewrite lookup_insert_eq].
  - rewrite !lookup_insert_ne by done. unfold stream_fields.
    destruct topic; simpl;
      [by rewrite lookup_insert_eq | by rewrite lookup_insert_ne].
  - by rewrite lookup_insert_eq.
  - by rewrite lookup_insert_ne, lookup_insert_eq.
  - destruct (encode_narrow_Ok _ _ _ _ Eenc) as [Hall _].
    eapply Forall2_impl; [exact Hall|].
    intros term v (l & op & opd & -> & Hl & Hop & Hopd & Hl').
    apply lookup_insert_None in Hl as [Hl Hlp].
    assert (<[p := nf]> hc !! l = Some (narrow_term_dict op opd)) as Hl''
      by by rewrite lookup_insert_ne.
    destruct (decide (lu = l)) as [->|Hne].
    + eexists l, _. split; [done|]. split; [done|].
      split; [by rewrite lookup_insert_eq|].
      assert (dus = narrow_term_dict op opd) as -> by congruence.
      rewrite !lookup_insert_ne by done. by rewrite Hop, Hopd.
    + exists l, (narrow_term_dict op opd). split; [done|]. split; [done|].
      split; [by rewrite lookup_insert_ne|]. by rewrite Hop, Hopd.
  - intros k Hk. rewrite Hsame by set_solver.
    unfold nf, narrow_fields. rewrite !lookup_insert_ne by set_solver.
    apply stream_fields_lookup; set_solver.
Qed.

(** X4: when the narrow override returns, [user_settings] of [page_params]
    is a dict whose [enable_desktop_notifications] is now [False] and whose
    other keys are as before; every other dict that existed, apart from
    [page_params] itself, is unchanged. *)
Theorem narrow_override_frame (w : World) (page_params : value)
    (narrow : list (list string)) (s : Stream) (topic : option string)
    (h : heap) (u : unit) (h' : heap) :
  narrow_override w page_params narrow s topic h = (Ok u, h') →
  ∃ p d lu dus',
    page_params = VRef p ∧ h !! p = Some d ∧
    d !! "user_settings" = Some (VRef lu) ∧ h' !! lu = Some dus' ∧
    dus' !! "enable_desktop_notifications" = Some (VBool false) ∧
    (∀ dus, h !! lu = Some dus → lu ≠ p →
            dus' = <["enable_desktop_notifications" := VBool false]> dus) ∧
    (∀ l x, h !! l = Some x → l ≠ p → l ≠ lu → h' !! l = Some x).
Proof.
  intros (p & d & n & terms & hc & lu & dus & -> & Hp & En & Eenc & Hus & Hlu
          & ->)%narrow_override_Ok_terms.
  pose proof (allocates_only_encode_narrow narrow _ _ _ Eenc) as Hsub.
  exists p, d, lu. eexists. do 3 (split; [done|]).
  split; [by rewrite lookup_insert_eq|].
  split; [by rewrite lookup_insert_eq|]. split.
  - intros dus0 Hlu0 Hne. rewrite lookup_insert_ne in Hlu by done.
    assert (hc !! lu = Some dus0) as Hc.
    { eapply lookup_weaken; [|done]. by rewrite lookup_insert_ne. }
    congruence.
  - intros l x Hl Hlp Hlu'. rewrite !lookup_insert_ne by done.
    eapply lookup_weaken; [|done]. by rewrite lookup_insert_ne.
Qed.

(** X5: a narrow term without an operator or an operand makes the override
    raise [IndexError] after it has written the stream name (and the topic)
    into [page_params] and before it writes anything else: [narrow],
    [max_message_id] and the user settings are as they were, as is every
    other dict that existed. *)
Theorem narrow_override_malformed_term (w : World) (p : loc)
    (d : gmap string value) (narrow : list (list string)) (s : Stream)
    (topic : option string) (h : heap) :
  h !! p = Some d → narrow_well_formed narrow = false →
  ∃ h', narrow_override w (VRef p) narrow s topic h = (Raise IndexError, h') ∧
        h' !! p = Some (stream_fields s topic d) ∧
        ∀ l x, h !! l = Some x → l ≠ p → h' !! l = Some x.
Proof.
  intros Hp Hwf. destruct (narrow_max_message_id_Ok w s) as [n En].
  rewrite (narrow_override_unfold w p d narrow s topic n h Hp En).
  pose proof (encode_narrow_outcome narrow (<[p := stream_fields s topic d]> h))
    as Hout.
  destruct (encode_narrow narrow (<[p := stream_fields s topic d]> h))
    as [[terms|e] hc] eqn:Eenc; simpl in Hout; [congruence|].
  destruct Hout as [-> _].
  pose proof (allocates_only_encode_narrow narrow _ _ _ Eenc) as Hsub.
  exists hc. split; [done|]. split.
  - eapply lookup_weaken; [|done]. by rewrite lookup_insert_eq.
  - intros l x Hl Hne. eapply lookup_weaken; [|done].
    by rewrite lookup_insert_ne.
Qed.

(** X6: with well-formed terms, a [page_params] without [user_settings]
    makes the override raise [KeyError], and one whose [user_settings] is
    not a dict (a number, a string, a list, [None]) makes it raise
    [AssertionError]; in both cases the four narrow fields have already
    been written. *)
Theorem narrow_override_bad_user_settings (w : World) (p : loc)
    (d : gmap string value) (narrow : list (list string)) (s : Stream)
    (topic : option string) (n : Z) (h : heap) :
  h !! p = Some d → narrow_well_formed narrow = true →
  narrow_max_message_id w s = Ok n →
  (∀ lu, d !! "user_settings" ≠ Some (VRef lu)) →
  ∃ terms h',
    narrow_override w (VRef p) narrow s topic h
      = (Raise (match d !! "user_settings" with
                | None => KeyError "user_settings"
                | Some _ => AssertionError
                end), h') ∧
    h' !! p = Some (narrow_fields s topic terms n d).
Proof.
  intros Hp Hwf En Hnot.
  rewrite (narrow_override_unfold w p d narrow s topic n h Hp En).
  pose proof (encode_narrow_outcome narrow (<[p := stream_fields s topic d]> h))
    as Hout.
  destruct (encode_narrow narrow (<[p := stream_fields s topic d]> h))
    as [[terms|e] hc] eqn:Eenc; simpl in Hout.
  2:{ destruct Hout as [_ Hout]. congruence. }
  rewrite (force_desktop_notifications_off_unfold p
             (narrow_fields s topic terms n d))
    by by rewrite lookup_insert_eq.
  rewrite narrow_fields_user_settings.
  exists terms, (<[p := narrow_fields s topic terms n d]> hc).
  split; [|by rewrite lookup_insert_eq].
  destruct (d !! "user_settings") as [[| | | | | |lu]|] eqn:Hus; try done.
  by destruct (Hnot lu).
Qed.

(** ** The assembler, step by step *)

Lemma language_list_dicts_Ok w h :
  ∃ ll h', language_list_dicts w h = (Ok ll, h') ∧ h ⊆ h'.
Proof.
  unfold language_list_dicts. generalize (get_language_list w) as ds.
  intros ds. revert h. induction ds as [|d ds IH]; intros h.
  - by exists [], h.
  - cbn [comprehension]. unfold bind at 1. unfold bind at 1.
    unfold alloc at 1. unfold ret at 1.
    destruct (IH (<[fresh_loc h := d]> h)) as (ll & h' & E & Hsub).
    unfold bind at 1. rewrite E. eexists _, h'. split; [done|].
    etrans; [|done]. apply insert_subseteq, fresh_loc_None.
Qed.

(** Up to the merge, a build whose registration returned a state with a
    default language cannot fail. *)
Lemma build_prefix w request user_profile realm insecure_desktop_app narrow
    narrow_stream narrow_topic first_in_realm prompt_for_invites
    needs_tutorial h lr h1 reg lu dus dl :
  register_or_fetch w request user_profile realm narrow h
    = (Ok (VRef lr), h1) →
  h1 !! lr = Some reg → reg !! "user_settings" = Some (VRef lu) →
  h1 !! lu = Some dus → dus !! "default_language" = Some dl →
  ∃ language_list bot_types h2 h3,
    language_list_dicts w h1 = (Ok language_list, h2) ∧
    get_bot_types w user_profile h2 = (Ok bot_types, h3) ∧ h1 ⊆ h3 ∧
    build_page_params_for_home_page_load w request user_profile realm
      insecure_desktop_app narrow narrow_stream narrow_topic
      first_in_realm prompt_for_invites needs_tutorial h
      = build_tail w narrow narrow_stream narrow_topic (VRef lr)
          (request_language w request dl) (VRef (fresh_loc h3))
          (<[fresh_loc h3 :=
               reg ∪ page_params_literal w user_profile realm
                       insecure_desktop_app first_in_realm prompt_for_invites
                       needs_tutorial language_list bot_types]> h3).
Proof.
  intros Ereg Hlr Hus Hlu Hdl.
  destruct (language_list_dicts_Ok w h1) as (ll & h2 & Ell & Hsub12).
  destruct (get_bot_types_Ok w user_profile h2) as (bt & h3 & Ebt & Hsub23).
  exists ll, bt, h2, h3. do 2 (split; [done|]). split; [by etrans|].
  unfold build_page_params_for_home_page_load.
  erewrite bind_run by done.
  erewrite bind_run by by eapply getitem_run.
  erewrite bind_run by by eapply getitem_run.
  erewrite bind_run by done. erewrite bind_run by done.
  unfold bind at 1. unfold alloc at 1.
  assert (h3 !! lr = Some reg) as Hlr3.
  { eapply lookup_weaken; [done|]. by etrans. }
  erewrite bind_run.
  2:{ apply (merge_register_ret_run lr (fresh_loc h3) reg).
      - apply fresh_loc_ne. by eexists.
      - rewrite lookup_insert_ne; [done|].
        intros Heq. symmetry in Heq. revert Heq. apply fresh_loc_ne.
        by eexists.
      - by rewrite lookup_insert_eq. }
  by rewrite insert_insert_eq.
Qed.

(** The last three statements (lines 240-242). *)
Lemma build_tail_finish w lr p reg6 d6 lang (h6 : heap) :
  h6 !! p = Some d6 → h6 !! lr = Some reg6 → lr ≠ p →
  (translation_data <- alloc (get_language_translation_data w lang) ;;
   setitem (VRef p) "translation_data" (VRef translation_data) ;;;
   queue_id <- getitem (VRef lr) "queue_id" ;;
   ret (queue_id, VRef p)) h6
    = (match reg6 !! "queue_id" with
       | Some queue_id => Ok (queue_id, VRef p)
       | None => Raise (KeyError "queue_id")
       end,
       <[p := <["translation_data" := VRef (fresh_loc h6)]> d6]>
         (<[fresh_loc h6 := get_language_translation_data w lang]> h6)).
Proof.
  intros Hp Hlr Hne.
  assert (fresh_loc h6 ≠ p) as Hfp
    by (intros Heq; by apply (fresh_loc_ne h6 p); [eexists|]).
  assert (fresh_loc h6 ≠ lr) as Hflr
    by (intros Heq; by apply (fresh_loc_ne h6 lr); [eexists|]).
  unfold bind at 1. unfold alloc at 1.
  erewrite bind_run by (apply setitem_run; by rewrite lookup_insert_ne).
  unfold bind, getitem, ret.
  rewrite lookup_insert_ne by done. rewrite lookup_insert_ne by done.
  rewrite Hlr. by destruct (reg6 !! "queue_id").
Qed.

(** The registration's dict still holds its queue id after the override. *)
Lemma narrow_override_keeps_queue_id w p narrow s topic h u h' lr reg :
  narrow_override w (VRef p) narrow s topic h = (Ok u, h') →
  h !! lr = Some reg → lr ≠ p →
  ∃ reg', h' !! lr = Some reg' ∧ reg' !! "queue_id" = reg !! "queue_id".
Proof.
  intros (p' & d & n & terms & hc & lu & dus & [= <-] & Hp & En & Eenc & Hus
          & Hlu & ->)%narrow_override_Ok_terms Hlr Hne.
  pose proof (allocates_only_encode_narrow narrow _ _ _ Eenc) as Hsub.
  assert (hc !! lr = Some reg) as Hc.
  { eapply lookup_weaken; [|done]. by rewrite lookup_insert_ne. }
  destruct (decide (lu = lr)) as [->|Hlulr].
  - rewrite lookup_insert_ne in Hlu by done.
    assert (dus = reg) as -> by congruence.
    eexists. split; [by rewrite lookup_insert_eq|].
    by rewrite lookup_insert_ne.
  - exists reg. split; [|done]. by rewrite !lookup_insert_ne.
Qed.

(** X7: an identity whose request carries no client makes the build raise
    [AssertionError] before any registration, with the store untouched;
    and whatever the registration or fetch step raises, the build raises,
    with the store that step left. *)
Theorem build_registration_errors (w : World) (request : HttpRequest)
    (user_profile : option UserProfile) (realm : Realm)
    (insecure_desktop_app : bool) (narrow : list (list string))
    (narrow_stream : option Stream) (narrow_topic : option string)
    (first_in_realm prompt_for_invites needs_tutorial : bool) (h : heap) :
  (is_Some user_profile → notes_client request = None →
   build_page_params_for_home_page_load w request user_profile realm
     insecure_desktop_app narrow narrow_stream narrow_topic
     first_in_realm prompt_for_invites needs_tutorial h
     = (Raise AssertionError, h)) ∧
  (∀ e h1,
     register_or_fetch w request user_profile realm narrow h = (Raise e, h1) →
     build_page_params_for_home_page_load w request user_profile realm
       insecure_desktop_app narrow narrow_stream narrow_topic
       first_in_realm prompt_for_invites needs_tutorial h
       = (Raise e, h1)).
Proof.
  split.
  - intros [u ->] Hclient.
    unfold build_page_params_for_home_page_load.
    apply bind_run_Raise. unfold register_or_fetch. by rewrite Hclient.
  - intros e h1 E. unfold build_page_params_for_home_page_load.
    by apply bind_run_Raise.
Qed.

(** X8: when the registration returns something that is not a state dict
    with a [user_settings] dict holding [default_language], the build
    raises at line 179, before it creates [page_params]: the store is the
    one the registration left. *)
Theorem build_state_errors (w : World) (request : HttpRequest)
    (user_profile : option UserProfile) (realm : Realm)
    (insecure_desktop_app : bool) (narrow : list (list string))
    (narrow_stream : option Stream) (narrow_topic : option string)
    (first_in_realm prompt_for_invites needs_tutorial : bool)
    (h : heap) (register_ret : value) (h1 : heap) :
  register_or_fetch w request user_profile realm narrow h
    = (Ok register_ret, h1) →
  let result :=
    build_page_params_for_home_page_load w request user_profile realm
      insecure_desktop_app narrow narrow_stream narrow_topic
      first_in_realm prompt_for_invites needs_tutorial h in
  ((∀ lr, register_ret = VRef lr → h1 !! lr = None) →
   result = (Raise TypeError, h1)) ∧
  (∀ lr reg, register_ret = VRef lr → h1 !! lr = Some reg →
     match reg !! "user_settings" with
     | None => result = (Raise (KeyError "user_settings"), h1)
     | Some (VRef lu) =>
         match h1 !! lu with
         | None => result = (Raise TypeError, h1)
         | Some dus =>
             dus !! "default_language" = None →
             result = (Raise (KeyError "default_language"), h1)
         end
     | Some _ => result = (Raise TypeError, h1)
     end).
Proof.
  intros Ereg result. subst result.
  unfold build_page_params_for_home_page_load.
  erewrite bind_run by done. split.
  - intros Hnot. apply bind_run_Raise. unfold getitem.
    destruct register_ret as [| | | | | |lr]; try done.
    by rewrite (Hnot lr eq_refl).
  - intros lr reg -> Hlr.
    destruct (reg !! "user_settings") as [us|] eqn:Hus.
    2:{ apply bind_run_Raise. unfold getitem. by rewrite Hlr, Hus. }
    erewrite bind_run by by eapply getitem_run.
    destruct us as [| | | | | |lu]; try by apply bind_run_Raise.
    destruct (h1 !! lu) as [dus|] eqn:Hlu.
    + intros Hdl. apply bind_run_Raise. unfold getitem. by rewrite Hlu, Hdl.
    + apply bind_run_Raise. unfold getitem. by rewrite Hlu.
Qed.

Lemma narrow_override_IndexError w p d narrow s topic h :
  h !! p = Some d → narrow_well_formed narrow = false →
  (narrow_override w (VRef p) narrow s topic h).1 = Raise IndexError.
Proof.
  intros Hp Hwf. destruct (narrow_max_message_id_Ok w s) as [n En].
  rewrite (narrow_override_unfold w p d narrow s topic n h Hp En).
  pose proof (encode_narrow_outcome narrow (<[p := stream_fields s topic d]> h))
    as Hout.
  destruct (encode_narrow narrow (<[p := stream_fields s topic d]> h))
    as [[terms|e] hc]; simpl in Hout; [congruence|].
  by destruct Hout as [-> _].
Qed.

(** What the rest of the build does to a well-shaped state. *)
Lemma build_tail_cases w narrow narrow_stream narrow_topic lr p lang reg c lu
    dus (h5 : heap) :
  h5 !! p = Some c → h5 !! lr = Some reg → lr ≠ p →
  c !! "user_settings" = Some (VRef lu) → h5 !! lu = Some dus →
  let result :=
    build_tail w narrow narrow_stream narrow_topic (VRef lr) lang (VRef p) h5
  in
  match narrow_stream with
  | Some s =>
      if narrow_well_formed narrow then
        result.1 = match reg !! "queue_id" with
                   | Some queue_id => Ok (queue_id, VRef p)
                   | None => Raise (KeyError "queue_id")
                   end
      else result.1 = Raise IndexError
  | None =>
      result = (match reg !! "queue_id" with
                | Some queue_id => Ok (queue_id, VRef p)
                | None => Raise (KeyError "queue_id")
                end,
                <[p := <["translation_data" := VRef (fresh_loc h5)]> c]>
                  (<[fresh_loc h5 := get_language_translation_data w lang]>
                     h5))
  end.
Proof.
  intros Hp Hlr Hne Hus Hlu result. subst result. unfold build_tail.
  destruct narrow_stream as [s|].
  - destruct (narrow_override_effect w p c narrow s narrow_topic h5 Hp)
      as (n & d1 & En & Hp1 & _ & _ & Hrun).
    destruct (narrow_well_formed narrow) eqn:Hwf.
    + specialize (Hrun eq_refl lu Hus (ltac:(by eexists))).
      destruct (narrow_override w (VRef p) narrow s narrow_topic h5)
        as [[[]|e] h6] eqn:E; [|done].
      erewrite bind_run by done. cbn [snd] in Hp1.
      destruct (narrow_override_keeps_queue_id _ _ _ _ _ _ _ _ _ _ E Hlr Hne)
        as (reg6 & Hlr6 & Hq6).
      rewrite (build_tail_finish w lr p reg6 d1 lang h6) by done.
      by rewrite Hq6.
    + pose proof (narrow_override_IndexError w p c narrow s narrow_topic h5
                    Hp Hwf) as E.
      destruct (narrow_override w (VRef p) narrow s narrow_topic h5)
        as [o h6] eqn:E'. cbn [fst] in E. subst o.
      by erewrite bind_run_Raise.
  - erewrite bind_run by done.
    by rewrite (build_tail_finish w lr p reg c lang h5).
Qed.

Lemma build_Ok_state w request user_profile realm insecure_desktop_app narrow
    narrow_stream narrow_topic first_in_realm prompt_for_invites
    needs_tutorial h res h' :
  build_page_params_for_home_page_load w request user_profile realm
    insecure_desktop_app narrow narrow_stream narrow_topic
    first_in_realm prompt_for_invites needs_tutorial h = (Ok res, h') →
  ∃ lr h1 reg lu dus dl,
    register_or_fetch w request user_profile realm narrow h
      = (Ok (VRef lr), h1) ∧
    h1 !! lr = Some reg ∧ reg !! "user_settings" = Some (VRef lu) ∧
    h1 !! lu = Some dus ∧ dus !! "default_language" = Some dl.
Proof.
  unfold build_page_params_for_home_page_load.
  intros (r & h1 & E1 & H)%bind_Ok.
  apply bind_Ok in H as (us & h1' & E2 & H).
  apply getitem_Ok in E2 as (-> & lr & reg & -> & Hlr & Hus).
  apply bind_Ok in H as (dl & h1' & E3 & H).
  apply getitem_Ok in E3 as (-> & lu & dus & -> & Hlu & Hdl).
  by exists lr, h1, reg, lu, dus, dl.
Qed.

(** The facts [build_tail_cases] needs, for the store after the merge. *)
Lemma merged_store_facts (h1 h3 : heap) lr reg lu dus
    (literal : gmap string value) :
  h1 ⊆ h3 → h1 !! lr = Some reg → h1 !! lu = Some dus →
  reg !! "user_settings" = Some (VRef lu) →
  let p := fresh_loc h3 in
  let h5 := <[p := reg ∪ literal]> h3 in
  h5 !! p = Some (reg ∪ literal) ∧ h5 !! lr = Some reg ∧ lr ≠ p ∧
  (reg ∪ literal) !! "user_settings" = Some (VRef lu) ∧
  h5 !! lu = Some dus ∧ lu ≠ p ∧ h1 !! p = None.
Proof.
  intros Hsub Hlr Hlu Hus p h5.
  assert (h3 !! lr = Some reg) as Hlr3 by by eapply lookup_weaken.
  assert (h3 !! lu = Some dus) as Hlu3 by by eapply lookup_weaken.
  assert (lr ≠ p) as Hlrp by (apply fresh_loc_ne; by eexists).
  assert (lu ≠ p) as Hlup by (apply fresh_loc_ne; by eexists).
  unfold h5. rewrite lookup_insert_eq, !lookup_insert_ne by done.
  repeat split; try done.
  - by apply lookup_union_Some_l.
  - destruct (h1 !! p) as [x|] eqn:Hp; [|done].
    assert (h3 !! p = Some x) as Hp3 by by eapply lookup_weaken.
    unfold p in Hp3. by rewrite fresh_loc_None in Hp3.
Qed.

(** X9: once the registration has returned a state dict whose
    [user_settings] dict holds [default_language], the outcome of the build
    is decided by two things only.  With a narrow stream and a term short
    of an operator or operand it raises [IndexError]; otherwise it returns
    the registration's [queue_id] together with a new [page_params] object,
    or raises [KeyError] when the state has no [queue_id]. *)
Theorem build_outcome (w : World) (request : HttpRequest)
    (user_profile : option UserProfile) (realm : Realm)
    (insecure_desktop_app : bool) (narrow : list (list string))
    (narrow_stream : option Stream) (narrow_topic : option string)
    (first_in_realm prompt_for_invites needs_tutorial : bool)
    (h : heap) (lr : loc) (h1 : heap) (reg : gmap string value) (lu : loc)
    (dus : gmap string value) (dl : value) :
  register_or_fetch w request user_profile realm narrow h
    = (Ok (VRef lr), h1) →
  h1 !! lr = Some reg → reg !! "user_settings" = Some (VRef lu) →
  h1 !! lu = Some dus → dus !! "default_language" = Some dl →
  ∃ p, h1 !! p = None ∧
    (build_page_params_for_home_page_load w request user_profile realm
       insecure_desktop_app narrow narrow_stream narrow_topic
       first_in_realm prompt_for_invites needs_tutorial h).1
      = if bool_decide (is_Some narrow_stream)
           && negb (narrow_well_formed narrow)
        then Raise IndexError
        else match reg !! "queue_id" with
             | Some queue_id => Ok (queue_id, VRef p)
             | None => Raise (KeyError "queue_id")
             end.
Proof.
  intros Ereg Hlr Hus Hlu Hdl.
  destruct (build_prefix w request user_profile realm insecure_desktop_app
              narrow narrow_stream narrow_topic first_in_realm
              prompt_for_invites needs_tutorial h lr h1 reg lu dus dl
              Ereg Hlr Hus Hlu Hdl)
    as (ll & bt & h2 & h3 & _ & _ & Hsub & ->).
  destruct (merged_store_facts h1 h3 lr reg lu dus
              (page_params_literal w user_profile realm insecure_desktop_app
                 first_in_realm prompt_for_invites needs_tutorial ll bt)
              Hsub Hlr Hlu Hus)
    as (Hp5 & Hlr5 & Hne & Hus5 & Hlu5 & _ & Hp1).
  exists (fresh_loc h3). split; [done|].
  pose proof (build_tail_cases w narrow narrow_stream narrow_topic lr
                (fresh_loc h3) (request_language w request dl) reg _ lu dus
                _ Hp5 Hlr5 Hne Hus5 Hlu5) as Hcases.
  cbv zeta in Hcases. destruct narrow_stream as [s|].
  - rewrite bool_decide_true by by eexists.
    by destruct (narrow_well_formed narrow).
  - rewrite bool_decide_false by (by intros [??]). by rewrite Hcases.
Qed.

(** X10: a build with a narrow stream that returns has put into the
    snapshot the stream's name, the latest message id of the stream, one
    entry per narrow term and, when given, the topic, whatever the
    registration held under these keys. *)
Theorem narrow_build_snapshot (w : World) (request : HttpRequest)
    (user_profile : option UserProfile) (realm : Realm)
    (insecure_desktop_app : bool) (narrow : list (list string))
    (s : Stream) (narrow_topic : option string)
    (first_in_realm prompt_for_invites needs_tutorial : bool)
    (h : heap) (queue_id page_params : value) (h' : heap) :
  build_page_params_for_home_page_load w request user_profile realm
    insecure_desktop_app narrow (Some s) narrow_topic
    first_in_realm prompt_for_invites needs_tutorial h
    = (Ok (queue_id, page_params), h') →
  ∃ n terms,
    narrow_max_message_id w s = Ok n ∧
    getitem page_params "narrow_stream" h' = (Ok (VStr (stream_name s)), h') ∧
    getitem page_params "max_message_id" h' = (Ok (VInt n), h') ∧
    getitem page_params "narrow" h' = (Ok (VList terms), h') ∧
    length terms = length narrow ∧
    (∀ topic, narrow_topic = Some topic →
       getitem page_params "narrow_topic" h' = (Ok (VStr topic), h')).
Proof.
  intros (lr & h1 & reg & lu & dus & ll & bt & h2 & h3 & h6 & d6 & lang & _
          & _ & _ & _ & _ & _ & _ & -> & Hnarrow & Hp6 & -> & _)%build_Ok.
  apply narrow_override_Ok_terms in Hnarrow
    as (p & d & n & terms & hc & lu' & dus' & [= <-] & _ & En & Eenc & _
        & Hlu' & ->).
  set (nf := narrow_fields s narrow_topic terms n d) in *.
  assert (∀ k, k ≠ "enable_desktop_notifications" → d6 !! k = nf !! k)
    as Hsame.
  { destruct (decide (lu' = fresh_loc h3)) as [->|Hne].
    - rewrite lookup_insert_eq in Hlu', Hp6.
      injection Hlu' as <-. injection Hp6 as <-.
      intros k Hk. by rewrite lookup_insert_ne.
    - rewrite lookup_insert_ne, lookup_insert_eq in Hp6 by done.
      by injection Hp6 as <-. }
  destruct (encode_narrow_Ok _ _ _ _ Eenc) as [Hall _].
  exists n, terms. split; [done|].
  match goal with
  | |- context [getitem _ "narrow" ?hf] => set (hfinal := hf)
  end.
  assert (∀ k x, k ≠ "translation_data" → k ≠ "enable_desktop_notifications" →
                 nf !! k = Some x →
                 getitem (VRef (fresh_loc h3)) k hfinal = (Ok x, hfinal))
    as Hget.
  { intros k x Hk1 Hk2 Hx. eapply getitem_run.
    - unfold hfinal. by rewrite lookup_insert_eq.
    - rewrite lookup_insert_ne by done. by rewrite Hsame. }
  unfold nf, narrow_fields in Hget.
  split; [|split; [|split; [|split]]].
  - apply Hget; [done..|]. rewrite !lookup_insert_ne by done.
    unfold stream_fields. destruct narrow_topic; simpl;
      [by rewrite lookup_insert_ne, lookup_insert_eq
      | by rewrite lookup_insert_eq].
  - apply Hget; [done..|]. by rewrite lookup_insert_eq.
  - apply Hget; [done..|]. by rewrite lookup_insert_ne, lookup_insert_eq.
  - symmetry. by eapply Forall2_length.
  - intros topic ->. apply Hget; [done..|].
    rewrite !lookup_insert_ne by done. by rewrite lookup_insert_eq.
Qed.

(** X11: a build that returns ends by putting under [translation_data] a
    dict of its own, created after everything else, that holds the
    translation data of the request language; that language is resolved
    from the [default_language] the registration's [user_settings] held. *)
Theorem build_translation_data (w : World) (request : HttpRequest)
    (user_profile : option UserProfile) (realm : Realm)
    (insecure_desktop_app : bool) (narrow : list (list string))
    (narrow_stream : option Stream) (narrow_topic : option string)
    (first_in_realm prompt_for_invites needs_tutorial : bool)
    (h : heap) (queue_id page_params : value) (h' : heap) :
  build_page_params_for_home_page_load w request user_profile realm
    insecure_desktop_app narrow narrow_stream narrow_topic
    first_in_realm prompt_for_invites needs_tutorial h
    = (Ok (queue_id, page_params), h') →
  ∃ lr h1 reg lu dus dl t,
    register_or_fetch w request user_profile realm narrow h
      = (Ok (VRef lr), h1) ∧
    h1 !! lr = Some reg ∧ reg !! "user_settings" = Some (VRef lu) ∧
    h1 !! lu = Some dus ∧ dus !! "default_language" = Some dl ∧
    h1 !! t = None ∧
    getitem page_params "translation_data" h' = (Ok (VRef t), h') ∧
    h' !! t
      = Some (get_language_translation_data w (request_language w request dl)).
Proof.
  intros E.
  destruct (build_Ok_state _ _ _ _ _ _ _ _ _ _ _ _ _ _ E)
    as (lr & h1 & reg & lu & dus & dl & Ereg & Hlr & Hus & Hlu & Hdl).
  destruct (build_prefix w request user_profile realm insecure_desktop_app
              narrow narrow_stream narrow_topic first_in_realm
              prompt_for_invites needs_tutorial h lr h1 reg lu dus dl
              Ereg Hlr Hus Hlu Hdl)
    as (ll & bt & h2 & h3 & _ & _ & Hsub & Etail).
  rewrite Etail in E. clear Etail.
  set (literal := page_params_literal w user_profile realm
                    insecure_desktop_app first_in_realm prompt_for_invites
                    needs_tutorial ll bt) in *.
  destruct (merged_store_facts h1 h3 lr reg lu dus literal Hsub Hlr Hlu Hus)
    as (Hp5 & Hlr5 & Hne & Hus5 & Hlu5 & Hlup & Hp1).
  set (p := fresh_loc h3) in *. set (h5 := <[p := reg ∪ literal]> h3) in *.
  unfold build_tail in E.
  apply bind_Ok in E as ([] & h6 & Enarrow & E).
  apply bind_Ok in E as (t & h7 & Et & E). apply alloc_Ok in Et as [-> ->].
  apply bind_Ok in E as ([] & h8 & Eset & E).
  apply setitem_Ok in Eset as (p' & d6 & [= <-] & Hp7 & ->).
  apply bind_Ok in E as (q & h9 & Eq & E).
  apply getitem_Ok in Eq as (-> & _). apply ret_Ok in E as [[= -> ->] ->].
  assert (is_Some (h6 !! p) ∧
          ∀ l x, h5 !! l = Some x → l ≠ p → is_Some (h6 !! l))
    as [Hp6 Hgrow5].
  { destruct narrow_stream as [s|].
    - apply narrow_override_Ok in Enarrow
        as (p' & d & n & terms & hc & lu' & dus' & [= <-] & _ & _ & Hfr & _
            & _ & _ & ->).
      split.
      + destruct (decide (lu' = p)) as [->|Hne'].
        * rewrite lookup_insert_eq. by eexists.
        * rewrite lookup_insert_ne, lookup_insert_eq by done. by eexists.
      + intros l x Hl Hlp. destruct (decide (lu' = l)) as [->|Hne'].
        * rewrite lookup_insert_eq. by eexists.
        * rewrite !lookup_insert_ne by done. rewrite (Hfr l x) by done.
          by eexists.
    - apply ret_Ok in Enarrow as [_ ->]. split; by eexists. }
  assert (∀ l x, h1 !! l = Some x → is_Some (h6 !! l)) as Hgrow.
  { intros l x Hl.
    assert (h3 !! l = Some x) as Hl3 by by eapply lookup_weaken.
    assert (l ≠ p) by (apply fresh_loc_ne; by eexists).
    apply (Hgrow5 l x); [|done]. unfold h5. by rewrite lookup_insert_ne. }
  assert (fresh_loc h6 ≠ p) as Htp.
  { intros Heq. rewrite <- Heq, fresh_loc_None in Hp6. by destruct Hp6. }
  exists lr, h1, reg, lu, dus, dl, (fresh_loc h6). do 5 (split; [done|]).
  split; [|split].
  - destruct (h1 !! fresh_loc h6) as [x|] eqn:Hx; [|done].
    destruct (Hgrow _ _ Hx) as [y Hy]. by rewrite fresh_loc_None in Hy.
  - eapply getitem_run; [by rewrite lookup_insert_eq|].
    by rewrite lookup_insert_eq.
  - rewrite lookup_insert_ne by done. by rewrite lookup_insert_eq.
Qed.

(** X12: a build without a narrow stream that returns has changed no object
    of the store the registration left, and gives the narrow keys and
    [user_settings] of the snapshot the values the registration held (or
    none): [enable_desktop_notifications] stays as registered. *)
Theorem build_without_narrow (w : World) (request : HttpRequest)
    (user_profile : option UserProfile) (realm : Realm)
    (insecure_desktop_app : bool) (narrow : list (list string))
    (narrow_topic : option string)
    (first_in_realm prompt_for_invites needs_tutorial : bool)
    (h : heap) (queue_id page_params : value) (h' : heap) :
  build_page_params_for_home_page_load w request user_profile realm
    insecure_desktop_app narrow None narrow_topic
    first_in_realm prompt_for_invites needs_tutorial h
    = (Ok (queue_id, page_params), h') →
  ∃ lr h1 reg p pp,
    register_or_fetch w request user_profile realm narrow h
      = (Ok (VRef lr), h1) ∧
    h1 !! lr = Some reg ∧ page_params = VRef p ∧ h' !! p = Some pp ∧
    h1 ⊆ h' ∧
    (∀ k, k ∈ ["narrow_stream"; "narrow_topic"; "narrow"; "max_message_id";
               "user_settings"] → pp !! k = reg !! k).
Proof.
  intros (lr & h1 & reg & lu & dus & ll & bt & h2 & h3 & p & pp & Ereg & Hlr
          & Hus & Hlu0 & _ & _ & -> & _ & Hp & _ & Hpp & Hlu
          & Hframe)%build_snapshot.
  exists lr, h1, reg, p, pp. do 4 (split; [done|]). split.
  - apply map_subseteq_spec. intros l x Hl.
    destruct (decide (l = lu)) as [->|Hne]; [congruence | by apply Hframe].
  - intros k Hk. rewrite Hpp by (unfold rewritten_after_merge; set_solver).
    destruct (reg !! k) as [x|] eqn:Hx.
    + by apply lookup_union_Some_l.
    + rewrite lookup_union_r by done.
      rewrite !elem_of_cons in Hk.
      destruct Hk as [->|[->|[->|[->|[->|Hk]]]]]; try done.
      by apply elem_of_nil in Hk.
Qed.

(** ** More on the billing policy *)

(** X13: the billing subsystem is asked at most two questions, and only
    about the identity's own realm: every query in the log comes from an
    identity with billing access under the corporate feature; a customer
    query names the identity's realm; a plan query names the customer found
    for that realm, and is sent only when its sponsorship is not pending. *)
Theorem get_billing_info_queries (w : World)
    (user_profile : option UserProfile) :
  let queries := (get_billing_info_logged w user_profile).2 in
  (length queries ≤ 2)%nat ∧
  ∀ q, q ∈ queries →
    ∃ u, user_profile = Some u ∧ CORPORATE_ENABLED (settings w) = true ∧
         has_billing_access u = true ∧
         match q with
         | QCustomerByRealm r => r = realm u
         | QPlanExists c =>
             get_customer_by_realm (billing w) (realm u) = Some c ∧
             sponsorship_pending c = false
         end.
Proof.
  unfold get_billing_info_logged.
  destruct user_profile as [u|]; simpl; [|split; [lia | by intros ? ?%elem_of_nil]].
  destruct (CORPORATE_ENABLED (settings w)) eqn:Hc; simpl;
    [|split; [lia | by intros ? ?%elem_of_nil]].
  destruct (has_billing_access u) eqn:Hacc; simpl;
    [|split; [lia | by intros ? ?%elem_of_nil]].
  destruct (get_customer_by_realm (billing w) (realm u)) as [c|] eqn:Hcust;
    simpl.
  2:{ split; [lia|]. intros q ->%list_elem_of_singleton. by exists u. }
  destruct (sponsorship_pending c) eqn:Hsp; simpl.
  { split; [lia|]. intros q ->%list_elem_of_singleton. by exists u. }
  assert (∀ q, q ∈ [QCustomerByRealm (realm u); QPlanExists c] →
            ∃ u0, Some u = Some u0 ∧ true = true ∧ has_billing_access u0 = true ∧
              match q with
              | QCustomerByRealm r => r = realm u0
              | QPlanExists c0 =>
                  get_customer_by_realm (billing w) (realm u0) = Some c0 ∧
                  sponsorship_pending c0 = false
              end) as Hboth.
  { intros q [->|[->|Hq]%elem_of_cons]%elem_of_cons;
      [by exists u | by exists u | by apply elem_of_nil in Hq]. }
  by destruct (customer_plan_exists (billing w) c); simpl; (split; [lia|]).
Qed.

Lemma show_plans_eq w user_profile :
  show_plans (get_billing_info w user_profile)
    = match user_profile with
      | Some u =>
          CORPORATE_ENABLED (settings w) && negb (is_guest u)
          && (plan_type (realm u) =? Realm_LIMITED (consts w))
      | None => false
      end.
Proof.
  unfold get_billing_info, get_billing_info_logged.
  destruct user_profile as [u|]; [|done]. simpl.
  destruct (CORPORATE_ENABLED (settings w)); [|done]. simpl.
  match goal with
  | |- context [if has_billing_access u then ?a else ?b] =>
      destruct (if has_billing_access u then a else b) as [sb q]
  end; simpl.
  by destruct (negb (is_guest u) && _).
Qed.

(** X14: whether the plans link is shown depends neither on the billing
    store nor on the identity's billing access: two stores, and two
    identities that differ in nothing but [has_billing_access], give the
    same [show_plans]. *)
Theorem show_plans_ignores_billing (w : World) (b1 b2 : BillingStore)
    (u1 u2 : UserProfile) :
  is_guest u1 = is_guest u2 → realm u1 = realm u2 →
  show_plans (get_billing_info (with_billing w b1) (Some u1))
    = show_plans (get_billing_info (with_billing w b2) (Some u2)).
Proof.
  intros Hg Hr. rewrite !show_plans_eq. simpl. by rewrite Hg, Hr.
Qed.

(** X15: an identity without billing access that is not a guest, in a realm
    on the Limited plan under the corporate feature, sees the plans link
    and not the billing link. *)
Theorem plans_without_billing_access (w : World) (u : UserProfile) :
  CORPORATE_ENABLED (settings w) = true → has_billing_access u = false →
  is_guest u = false → plan_type (realm u) = Realm_LIMITED (consts w) →
  get_billing_info w (Some u) = {| show_billing := false; show_plans := true |}.
Proof.
  intros Hc Hacc Hg Hplan.
  assert (show_plans (get_billing_info w (Some u)) = true) as Hplans.
  { rewrite show_plans_eq, Hc, Hg, Hplan. simpl. by apply Z.eqb_eq. }
  assert (show_billing (get_billing_info w (Some u)) = false) as Hbilling.
  { destruct (show_billing (get_billing_info w (Some u))) eqn:E; [|done].
    apply show_billing_true_iff in E as (_ & u' & [= <-] & Hacc' & _).
    congruence. }
  destruct (get_billing_info w (Some u)) as [sb sp]. simpl in *. congruence.
Qed.

(** X16: when the plan constants are distinct, a realm is never offered both
    the plans link and the promotion of sponsoring: the first needs the
    Limited plan, the second Standard Free or Self Hosted. *)
Theorem plans_and_sponsorship_exclusive (w : World) (u : UserProfile) :
  Realm_LIMITED (consts w) ≠ Realm_STANDARD_FREE (consts w) →
  Realm_LIMITED (consts w) ≠ Realm_SELF_HOSTED (consts w) →
  show_plans (get_billing_info w (Some u)) = true →
  promote_sponsoring_zulip_in_realm w (realm u) = false.
Proof.
  intros Hsf Hsh Hplans. rewrite show_plans_eq in Hplans.
  apply andb_prop in Hplans as [_ Hplan]. apply Z.eqb_eq in Hplan.
  unfold promote_sponsoring_zulip_in_realm.
  destruct (PROMOTE_SPONSORING_ZULIP (settings w)); [|done]. simpl.
  apply bool_decide_eq_false. rewrite Hplan.
  intros [?|[?|Hin]%elem_of_cons]%elem_of_cons; [done..|].
  by apply elem_of_nil in Hin.
Qed.

(** ** More on the latest message *)

Lemma narrow_max_message_id_cases w s :
  (narrow_max_message_id w s = Ok (-1) ∧
   ∀ m, m ∈ messages w → message_recipient m ≠ recipient s) ∨
  (∃ m, m ∈ messages w ∧ message_recipient m = recipient s ∧
        narrow_max_message_id w s = Ok (message_id m) ∧
        ∀ m', m' ∈ messages w → message_recipient m' = recipient s →
              message_id m' ≤ message_id m).
Proof.
  unfold narrow_max_message_id.
  pose proof (first_row_rev_ascending _
    (ascending_order_by_id (filter_recipient (messages w) (recipient s))))
    as H.
  destruct (first_row _) as [m|e].
  - right. destruct H as [Hin Hmax].
    apply elem_of_order_by_id, elem_of_filter_recipient in Hin as [Hin Hr].
    exists m. do 3 (split; [done|]). intros m' Hin' Hr'. apply Hmax.
    by apply elem_of_order_by_id, elem_of_filter_recipient.
  - left. destruct H as [-> Hnil]. split; [done|]. intros m Hin Hr.
    assert (m ∈ order_by_id (filter_recipient (messages w) (recipient s)))
      as Hm by by apply elem_of_order_by_id, elem_of_filter_recipient.
    rewrite Hnil in Hm. by apply elem_of_nil in Hm.
Qed.

(** X17: the latest message id of a stream depends only on the set of ids of
    the messages addressed to its recipient: not on the order of the
    table, on repeated rows, on messages of other recipients or on the
    stream's name. *)
Theorem narrow_max_message_id_depends_on_ids (w1 w2 : World)
    (s1 s2 : Stream) :
  (∀ i, (∃ m, m ∈ messages w1 ∧ message_recipient m = recipient s1 ∧
              message_id m = i) ↔
        (∃ m, m ∈ messages w2 ∧ message_recipient m = recipient s2 ∧
              message_id m = i)) →
  narrow_max_message_id w1 s1 = narrow_max_message_id w2 s2.
Proof.
  intros Hids.
  destruct (narrow_max_message_id_cases w1 s1)
    as [[E1 Hnone1]|(m1 & Hin1 & Hr1 & E1 & Hmax1)];
  destruct (narrow_max_message_id_cases w2 s2)
    as [[E2 Hnone2]|(m2 & Hin2 & Hr2 & E2 & Hmax2)].
  - congruence.
  - destruct (Hids (message_id m2)) as [_ (m & Hin & Hr & _)]; [by exists m2|].
    by destruct (Hnone1 m Hin).
  - destruct (Hids (message_id m1)) as [(m & Hin & Hr & _) _]; [by exists m1|].
    by destruct (Hnone2 m Hin).
  - rewrite E1, E2. f_equal.
    destruct (Hids (message_id m1)) as [(m & Hin & Hr & Hid) _];
      [by exists m1|].
    destruct (Hids (message_id m2)) as [_ (m' & Hin' & Hr' & Hid')];
      [by exists m2|].
    pose proof (Hmax2 m Hin Hr). pose proof (Hmax1 m' Hin' Hr'). lia.
Qed.

(** ** More on the merge *)

(** X18: merging the registration result into another dict never raises and
    changes that dict only: each key of the registration takes the
    registration's value, every other key keeps its own; merging a second
    time changes nothing. *)
Theorem merge_register_ret_spec (lr p : loc) (reg c : gmap string value)
    (h : heap) :
  lr ≠ p → h !! lr = Some reg → h !! p = Some c →
  ∃ merged,
    merge_register_ret (VRef lr) (VRef p) h = (Ok tt, <[p := merged]> h) ∧
    (∀ k, merged !! k = match reg !! k with
                        | Some v => Some v
                        | None => c !! k
                        end) ∧
    merge_register_ret (VRef lr) (VRef p) (<[p := merged]> h)
      = (Ok tt, <[p := merged]> h).
Proof.
  intros Hne Hlr Hp. exists (reg ∪ c).
  split; [by apply merge_register_ret_run|]. split.
  - intros k. destruct (reg !! k) as [v|] eqn:Hk.
    + by apply lookup_union_Some_l.
    + by rewrite lookup_union_r.
  - rewrite (merge_register_ret_run lr p reg (reg ∪ c)).
    + by rewrite insert_insert_eq, (assoc_L (∪)), (idemp_L (∪)).
    + done.
    + by rewrite lookup_insert_ne.
    + by rewrite lookup_insert_eq.
Qed.

(** ** The further properties at the concrete world *)

Example demo_store_lookups :
  demo_store !! 1%positive = Some demo_page ∧
  demo_store !! 2%positive = Some demo_user_settings ∧
  odd_store !! 1%positive = Some odd_page.
Proof.
  unfold demo_store, odd_store.
  rewrite !lookup_insert_eq, lookup_insert_ne, lookup_insert_eq by lia.
  done.
Qed.

Example demo_override_returns : demo_override.1 = Ok tt.
Proof. vm_compute. reflexivity. Qed.

Lemma demo_override_eq :
  narrow_override demo_world (VRef 1%positive) demo_narrow demo_stream
    (Some "lunch") demo_store = (Ok tt, demo_override.2).
Proof.
  fold demo_override. rewrite (surjective_pairing demo_override) at 1.
  by rewrite demo_override_returns.
Qed.

Example bare_registration_returns :
  bare_registration.1 = Ok (VRef 2%positive) ∧
  bare_registration.2 !! 2%positive = Some ∅.
Proof. vm_compute. done. Qed.

Lemma bare_registration_eq :
  register_or_fetch bare_world demo_request (Some demo_owner) demo_realm
    demo_narrow ∅ = (Ok (VRef 2%positive), bare_registration.2).
Proof.
  fold bare_registration. rewrite (surjective_pairing bare_registration) at 1.
  by rewrite (proj1 bare_registration_returns).
Qed.

Lemma narrow_override_writes_witness :
  ∃ d', demo_override.2 !! 1%positive = Some d' ∧
        d' !! "narrow_stream" = Some (VStr "devel") ∧
        d' !! "narrow_topic" = Some (VStr "lunch") ∧
        d' !! "max_message_id" = Some (VInt 9).
Proof.
  destruct (narrow_override_writes demo_world (VRef 1%positive) demo_narrow
              demo_stream (Some "lunch") demo_store tt demo_override.2
              demo_override_eq)
    as (p & d & d' & n & terms & [= <-] & _ & Hp' & En & Hstream & Htopic
        & Hmax & _).
  assert (narrow_max_message_id demo_world demo_stream = Ok 9) as E9
    by reflexivity.
  exists d'. split; [exact Hp'|]. split; [exact Hstream|].
  split; [exact Htopic|]. congruence.
Defined.

Lemma narrow_override_frame_witness :
  ∃ dus', demo_override.2 !! 2%positive = Some dus' ∧
          dus' !! "enable_desktop_notifications" = Some (VBool false).
Proof.
  destruct (narrow_override_frame demo_world (VRef 1%positive) demo_narrow
              demo_stream (Some "lunch") demo_store tt demo_override.2
              demo_override_eq)
    as (p & d & lu & dus' & [= <-] & Hp & Hus & Hlu & Hoff & _).
  destruct demo_store_lookups as (Hpage & _ & _).
  assert (d = demo_page) as -> by congruence.
  assert (demo_page !! "user_settings" = Some (VRef 2%positive)) as Hus'
    by reflexivity.
  assert (lu = 2%positive) as -> by congruence.
  by exists dus'.
Defined.

Lemma narrow_override_malformed_term_witness :
  ∃ h', narrow_override demo_world (VRef 1%positive) [["stream"]] demo_stream
          None demo_store = (Raise IndexError, h') ∧
        h' !! 1%positive = Some (stream_fields demo_stream None demo_page) ∧
        ∀ l x, demo_store !! l = Some x → l ≠ 1%positive → h' !! l = Some x.
Proof.
  apply (narrow_override_malformed_term demo_world 1%positive demo_page
           [["stream"]] demo_stream None demo_store).
  - exact (proj1 demo_store_lookups).
  - reflexivity.
Defined.

Lemma narrow_override_bad_user_settings_witness :
  ∃ terms h',
    narrow_override demo_world (VRef 1%positive) demo_narrow demo_stream None
      odd_store = (Raise AssertionError, h') ∧
    h' !! 1%positive = Some (narrow_fields demo_stream None terms 9 odd_page).
Proof.
  apply (narrow_override_bad_user_settings demo_world 1%positive odd_page
           demo_narrow demo_stream None 9 odd_store).
  - exact (proj2 (proj2 demo_store_lookups)).
  - reflexivity.
  - reflexivity.
  - intros lu H. vm_compute in H. discriminate H.
Defined.

Lemma build_state_errors_witness :
  build_page_params_for_home_page_load bare_world demo_request
    (Some demo_owner) demo_realm false demo_narrow None None
    false false false ∅
    = (Raise (KeyError "user_settings"), bare_registration.2).
Proof.
  destruct (build_state_errors bare_world demo_request (Some demo_owner)
              demo_realm false demo_narrow None None false false false ∅
              (VRef 2%positive) bare_registration.2 bare_registration_eq)
    as [_ H].
  exact (H 2%positive ∅ eq_refl (proj2 bare_registration_returns)).
Defined.

Lemma build_outcome_witness :
  ∃ (reg : gmap string value) (p : loc),
    (build_page_params_for_home_page_load demo_world demo_request
       (Some demo_owner) demo_realm false demo_narrow (Some demo_stream) None
       false false false ∅).1
      = if bool_decide (is_Some (Some demo_stream))
           && negb (narrow_well_formed demo_narrow)
        then Raise IndexError
        else match reg !! "queue_id" with
             | Some queue_id => Ok (queue_id, VRef p)
             | None => Raise (KeyError "queue_id")
             end.
Proof.
  destruct (build_Ok_state demo_world demo_request (Some demo_owner)
              demo_realm false demo_narrow (Some demo_stream) None
              false false false ∅ _ _ demo_narrow_build_eq)
    as (lr & h1 & reg & lu & dus & dl & Ereg & Hlr & Hus & Hlu & Hdl).
  destruct (build_outcome demo_world demo_request (Some demo_owner) demo_realm
              false demo_narrow (Some demo_stream) None false false false ∅
              lr h1 reg lu dus dl Ereg Hlr Hus Hlu Hdl)
    as (p & _ & H).
  exists reg, p. exact H.
Defined.

Lemma narrow_build_snapshot_witness :
  ∃ n terms,
    narrow_max_message_id demo_world demo_stream = Ok n ∧
    getitem (VRef 8%positive) "narrow_stream" demo_narrow_build.2
      = (Ok (VStr "devel"), demo_narrow_build.2) ∧
    getitem (VRef 8%positive) "max_message_id" demo_narrow_build.2
      = (Ok (VInt n), demo_narrow_build.2) ∧
    getitem (VRef 8%positive) "narrow" demo_narrow_build.2
      = (Ok (VList terms), demo_narrow_build.2) ∧
    length terms = length demo_narrow ∧
    (∀ topic, None = Some topic →
       getitem (VRef 8%positive) "narrow_topic" demo_narrow_build.2
         = (Ok (VStr topic), demo_narrow_build.2)).
Proof.
  exact (narrow_build_snapshot demo_world demo_request (Some demo_owner)
           demo_realm false demo_narrow demo_stream None false false false ∅
           _ _ _ demo_narrow_build_eq).
Defined.

Lemma build_translation_data_witness :
  ∃ t, getitem (VRef 8%positive) "translation_data" demo_narrow_build.2
         = (Ok (VRef t), demo_narrow_build.2) ∧
       ∃ dl, demo_narrow_build.2 !! t
               = Some (get_language_translation_data demo_world
                         (request_language demo_world demo_request dl)).
Proof.
  destruct (build_translation_data demo_world demo_request (Some demo_owner)
              demo_realm false demo_narrow (Some demo_stream) None
              false false false ∅ _ _ _ demo_narrow_build_eq)
    as (lr & h1 & reg & lu & dus & dl & t & _ & _ & _ & _ & _ & _ & Hget & Ht).
  exists t. split; [exact Hget|]. by exists dl.
Defined.

Lemma build_without_narrow_witness :
  ∃ lr h1 reg p pp,
    register_or_fetch demo_world demo_request None demo_realm [] ∅
      = (Ok (VRef lr), h1) ∧
    h1 !! lr = Some reg ∧ VRef 6%positive = VRef p ∧
    demo_spectator_build.2 !! p = Some pp ∧
    h1 ⊆ demo_spectator_build.2 ∧
    (∀ k, k ∈ ["narrow_stream"; "narrow_topic"; "narrow"; "max_message_id";
               "user_settings"] → pp !! k = reg !! k).
Proof.
  exact (build_without_narrow demo_world demo_request None demo_realm false
           [] None false false false ∅ _ _ _ demo_spectator_build_eq).
Defined.

Lemma show_plans_ignores_billing_witness :
  show_plans (get_billing_info (with_billing demo_world demo_billing)
                (Some demo_owner))
    = show_plans (get_billing_info (with_billing demo_world empty_billing)
                    (Some demo_member)).
Proof.
  apply (show_plans_ignores_billing demo_world demo_billing empty_billing
           demo_owner demo_member); reflexivity.
Defined.

Lemma plans_without_billing_access_witness :
  get_billing_info demo_world (Some demo_member)
    = {| show_billing := false; show_plans := true |}.
Proof.
  apply (plans_without_billing_access demo_world demo_member); reflexivity.
Defined.

Lemma plans_and_sponsorship_exclusive_witness :
  promote_sponsoring_zulip_in_realm demo_world (realm demo_owner) = false.
Proof.
  apply (plans_and_sponsorship_exclusive demo_world demo_owner).
  - simpl. lia.
  - simpl. lia.
  - reflexivity.
Defined.

Lemma narrow_max_message_id_depends_on_ids_witness :
  narrow_max_message_id demo_world demo_stream
    = narrow_max_message_id demo_world renamed_stream.
Proof.
  apply (narrow_max_message_id_depends_on_ids demo_world demo_world
           demo_stream renamed_stream).
  intros i. reflexivity.
Defined.

Lemma merge_register_ret_spec_witness :
  ∃ merged,
    merge_register_ret (VRef 2%positive) (VRef 1%positive) demo_store
      = (Ok tt, <[1%positive := merged]> demo_store) ∧
    (∀ k, merged !! k = match demo_user_settings !! k with
                        | Some v => Some v
                        | None => demo_page !! k
                        end) ∧
    merge_register_ret (VRef 2%positive) (VRef 1%positive)
      (<[1%positive := merged]> demo_store)
      = (Ok tt, <[1%positive := merged]> demo_store).
Proof.
  apply (merge_register_ret_spec 2%positive 1%positive demo_user_settings
           demo_page demo_store).
  - lia.
  - exact (proj1 (proj2 demo_store_lookups)).
  - exact (proj1 demo_store_lookups).
Defined.

(** ** The latest message id in the narrow override *)







